(** * AgenticChatbot: the MongoDB tool server and the structured-chat client

    A shallow embedding of [mcp_server.py] ([app_lifespan],
    [query_db_aggregate]) and of [mcp_client.py] ([agent_executor], [main]),
    with the properties of the specification proved over it.

    Python objects that the code mutates (the pipeline lists) live in a store
    addressed by references; exceptions, early returns, [try]/[except] and
    [try]/[finally] are written out in a state-and-exception monad.  The
    third-party pieces the code calls ([datetime.fromisoformat], the MongoDB
    driver's [aggregate], the language-model planner) are parameters. *)

From Stdlib Require Import ZArith String Ascii List Lia Bool.
From stdpp Require Import base gmap strings list.

Local Open Scope string_scope.
Local Open Scope Z_scope.
Local Open Scope list_scope.

(** ** Python exceptions and values *)

(** The exception classes that can reach the code under study.  The last
    four derive from [BaseException] only (Python 3.8 and later for
    [CancelledError]); all the others derive from [Exception]. *)
Inductive exn_class :=
| ValueError
| TypeError
| RuntimeError
| ConnectionFailure
| OperationFailure
| OutputParserException
| CancelledError
| KeyboardInterrupt
| SystemExit
| GeneratorExit.

(** [isinstance(e, Exception)], decided on the class. *)
Definition is_Exception (c : exn_class) : bool :=
  match c with
  | CancelledError | KeyboardInterrupt | SystemExit | GeneratorExit => false
  | _ => true
  end.

(** An exception object: its class and its [str(e)]. *)
Record exn := Exn { exn_cls : exn_class; exn_str : string }.

Inductive outcome (A : Type) :=
| Ret (a : A)
| Raise (e : exn).
Arguments Ret {A} a.
Arguments Raise {A} e.

(** [datetime.datetime]: the broken-down fields, and the UTC offset in
    seconds for an aware value. *)
Record datetime := Datetime {
  year : Z; month : Z; day : Z;
  hour : Z; minute : Z; second : Z; microsecond : Z;
  utcoffset : option Z
}.

(** The values exchanged with the driver: JSON-like trees with datetimes.
    A dict keeps its keys in insertion order. *)
#[warnings="-register-all"]
Inductive pyval :=
| VNone
| VBool (b : bool)
| VInt (n : Z)
| VStr (s : string)
| VDatetime (d : datetime)
| VList (l : list pyval)
| VDict (kv : list (string * pyval)).

(** Truthiness of an [Optional[str]]: [None] and [''] are falsy. *)
Definition truthy (o : option string) : bool :=
  match o with
  | None => false
  | Some s => negb (String.eqb s "")
  end.

(** ** The state-and-exception monad *)

Definition M (W A : Type) : Type := W -> outcome A * W.

Definition ret {W A} (a : A) : M W A := fun w => (Ret a, w).

Definition raise {W A} (e : exn) : M W A := fun w => (Raise e, w).

Definition bind {W A B} (m : M W A) (k : A -> M W B) : M W B :=
  fun w =>
    match m w with
    | (Ret a, w') => k a w'
    | (Raise e, w') => (Raise e, w')
    end.

Declare Scope py_scope.
Delimit Scope py_scope with py.
Notation "x <- m ;; k" := (bind m (fun x => k))
  (at level 100, m at next level, right associativity) : py_scope.
Notation "m ;;; k" := (bind m (fun _ => k))
  (at level 100, right associativity) : py_scope.

(** [try: body except C as e: handler e]: the handler runs in the state the
    body left, and only for the exceptions the clause selects. *)
Definition try_except {W A} (body : M W A) (selects : exn -> bool)
    (handler : exn -> M W A) : M W A :=
  fun w =>
    match body w with
    | (Ret a, w') => (Ret a, w')
    | (Raise e, w') => if selects e then handler e w' else (Raise e, w')
    end.

(** [try: body finally: fin]: [fin] runs on every exit of [body]; the
    outcome of the body stands unless [fin] raises itself. *)
Definition try_finally {W A} (body : M W A) (fin : M W unit) : M W A :=
  fun w =>
    match body w with
    | (r, w') =>
        match fin w' with
        | (Ret _, w'') => (r, w'')
        | (Raise e, w'') => (Raise e, w'')
        end
    end.

(** [except Exception as e] *)
Definition except_Exception (e : exn) : bool := is_Exception (exn_cls e).

(** ** The tool server, [mcp_server.py] *)

(** Modelled from the spec: [db_utilities.mongo_implementation.MongoImplement]
    is not part of the sources at hand.  The specification describes it as
    the adapter that, given a connection string, a database name, a maximum
    pool size and a server-selection timeout, establishes a client handle;
    the handle is represented by the configuration it was built from. *)
Record MongoImplement := {
  connection_string : string;
  db_name : string;
  max_pool : Z;
  server_selection_timeout : Z
}.

Record AppContext := { db : MongoImplement }.

(** [ctx.request_context.lifespan_context] *)
Record Context := { lifespan_context : AppContext }.

(** References to list objects. *)
Definition loc := nat.

(** What the server does to the outside world, in order. *)
Inductive event :=
| EvLogInfo (msg : string)
| EvConnect (h : MongoImplement)
| EvAggregate (h : MongoImplement) (dbn coll : string) (stages : list pyval)
| EvClose (h : MongoImplement)
| EvPrint (msg : string).

Section ServerModel.

(** The database behind the driver, and the driver's [aggregate] followed
    by [list(...)]: it may change the database (a [$out] or [$merge]
    stage) and may raise. *)
Variable Database : Type.
Variable aggregate :
  Database -> string -> string -> list pyval ->
  outcome (list pyval) * Database.

(** [datetime.fromisoformat] on a [str]: the parsed value, or the message
    of the [ValueError] it raises. *)
Variable fromisoformat : string -> string + datetime.

Record world := World {
  heap : gmap loc (list pyval);
  database : Database;
  trace : list event
}.

Definition emit (ev : event) : M world unit :=
  fun w => (Ret tt, World (heap w) (database w) (trace w ++ [ev])).

(** [[]]: a fresh list object. *)
Definition new_list : M world loc :=
  fun w =>
    let l := fresh (dom (heap w)) in
    (Ret l, World (<[l := []]> (heap w)) (database w) (trace w)).

Definition read_list (l : loc) : M world (list pyval) :=
  fun w =>
    match heap w !! l with
    | Some xs => (Ret xs, w)
    | None => (Raise (Exn TypeError "object is not a list"), w)
    end.

(** [l.append(x)] *)
Definition list_append (l : loc) (x : pyval) : M world unit :=
  fun w =>
    match heap w !! l with
    | Some xs =>
        (Ret tt, World (<[l := xs ++ [x]]> (heap w)) (database w) (trace w))
    | None => (Raise (Exn TypeError "object is not a list"), w)
    end.

(** [l.extend(src)]: reads [src], writes [l]. *)
Definition list_extend (l src : loc) : M world unit :=
  fun w =>
    match heap w !! src, heap w !! l with
    | Some ys, Some xs =>
        (Ret tt, World (<[l := xs ++ ys]> (heap w)) (database w) (trace w))
    | _, _ => (Raise (Exn TypeError "object is not iterable"), w)
    end.

(** [datetime.fromisoformat(x)] for [x : Optional[str]]. *)
Definition datetime_fromisoformat (x : option string) : M world datetime :=
  match x with
  | Some s =>
      match fromisoformat s with
      | inr d => ret d
      | inl msg => raise (Exn ValueError msg)
      end
  | None => raise (Exn TypeError "fromisoformat: argument must be str")
  end.

(** [list(h.client[dbn][coll].aggregate(l))]: the driver is handed the
    list object and serialises its current contents. *)
Definition collection_aggregate (h : MongoImplement) (dbn coll : string)
    (l : loc) : M world (list pyval) :=
  (stages <- read_list l ;;
   fun w =>
     let (r, d') := aggregate (database w) dbn coll stages in
     (r, World (heap w) d'
           (trace w ++ [EvAggregate h dbn coll stages])))%py.

(** The stage built at lines 179-186. *)
Definition date_match_stage (start_dt end_dt : datetime) : pyval :=
  VDict [("$match",
          VDict [("date",
                  VDict [("$gte", VDatetime start_dt);
                         ("$lt", VDatetime end_dt)])])].

Definition invalid_date_prefix : string :=
  "Invalid date format. Use ISO format (e.g., '2025-04-19T00:00:00'). Error: ".

Definition no_results : string := "No results found for the aggregation.".

(** [query_db_aggregate], lines 132-193.  The [if]/[try] statement either
    returns from the function ([Some v]) or falls through ([None]). *)
Definition query_db_aggregate (ctx : Context) (pipeline : loc)
    (start end_ : option string) : M world pyval :=
  (let db := db (lifespan_context ctx) in
   final_pipeline <- new_list ;;
   returned <-
     (if truthy start && truthy end_ then
        try_except
          (start_dt <- datetime_fromisoformat start ;;
           end_dt <- datetime_fromisoformat end_ ;;
           list_append final_pipeline (date_match_stage start_dt end_dt) ;;;
           ret None)
          except_Exception
          (fun e => ret (Some (VStr (invalid_date_prefix +:+ exn_str e))))
      else ret None) ;;
   match returned with
   | Some v => ret v
   | None =>
       list_extend final_pipeline pipeline ;;;
       result <- collection_aggregate db "fundaura" "transactions"
                   final_pipeline ;;
       ret (match result with
            | [] => VStr no_results
            | _ :: _ => VList result
            end)
   end)%py.

(** [app_lifespan], lines 26-41, with the [async with] body that the
    hosting framework runs at the [yield] as the argument [body]. *)
Definition app_lifespan {A} (body : AppContext -> M world A) : M world A :=
  (emit (EvLogInfo "Starting MongoDB connection...") ;;;
   let db := {| connection_string := "mongodb://localhost:27017/";
                db_name := "fundaura";
                max_pool := 5;
                server_selection_timeout := 60000 |} in
   emit (EvConnect db) ;;;
   try_finally
     (body {| db := db |})
     (emit (EvClose db) ;;;
      emit (EvPrint "Closed MongoDB connection")))%py.

End ServerModel.

Arguments World {Database} heap database trace.
Arguments query_db_aggregate {Database} aggregate fromisoformat ctx pipeline
  start end_.
Arguments app_lifespan {Database A} body.
Arguments heap {Database} w.
Arguments database {Database} w.
Arguments trace {Database} w.

(** ** The structured-chat client, [mcp_client.py] *)

(** [langchain_core.agents]: an action chosen by the model, with the
    observation its tool call produced, and the two results of a pass.  An
    observation is kept as the text that the f-string of line 55 makes of
    it, [str(observation)]. *)
Record AgentAction := { tool : string; tool_input : pyval; log : string }.

Definition AgentStep : Type := AgentAction * string.

Inductive next_step :=
| AgentFinish (return_values : list (string * pyval))
| AgentSteps (steps : list AgentStep).

Inductive message :=
| AIMessage (content : string)
| HumanMessage (content : string).

(** The keyword arguments of [AgentExecutor(...)] that govern its loop. *)
Record AgentExecutor := {
  max_iterations : nat;
  handle_parsing_errors : bool;
  verbose : bool
}.

(** What the client writes: [print(...)] and [traceback.print_exc()]. *)
Inductive output :=
| OutPrint (args : list pyval)
| OutTraceback (e : exn).

Definition nl : string := String (ascii_of_nat 10) EmptyString.

Section ClientModel.

(** Everything the client talks to: the tool server it spawned and the
    language model. *)
Variable Env : Type.

(** [steps_run] is a ghost counter of the passes through the planner and
    the tools; only [call_take_next_step] advances it. *)
Record cworld := CWorld {
  env : Env;
  console : list output;
  steps_run : nat
}.

(** [stdio_client(...)], [ClientSession(...)], [session.initialize()] and
    [load_mcp_tools(session)] on entry, the two [__aexit__] on exit.
    [open_session] returning stands for lines 43-85 having run to the [try]
    statement; the properties of [main] are stated for those runs.  The
    runs in which one of these steps raises inside a context already
    entered are written out step by step for the same nesting in
    [run_agent] of the ReAct client. *)
Variable open_session : Env -> outcome unit * Env.
Variable close_session : Env -> outcome unit * Env.

(** One pass of plan, act, observe ([AgentExecutor._atake_next_step]): the
    model is asked for the next action given the steps so far and the
    chosen tool is called.  It may write to the console (the
    [MessageTracker] callbacks, [verbose=True]) and may raise. *)
Variable take_next_step :
  list AgentStep -> Env * list output ->
  outcome next_step * (Env * list output).

Definition on_env (f : Env -> outcome unit * Env) : M cworld unit :=
  fun w =>
    let (r, e') := f (env w) in (r, CWorld e' (console w) (steps_run w)).

Definition call_take_next_step (steps : list AgentStep)
    : M cworld next_step :=
  fun w =>
    let '(r, (e', c')) := take_next_step steps (env w, console w) in
    (r, CWorld e' c' (S (steps_run w))).

Definition print (args : list pyval) : M cworld unit :=
  fun w =>
    (Ret tt, CWorld (env w) (console w ++ [OutPrint args]) (steps_run w)).

Definition traceback_print_exc (e : exn) : M cworld unit :=
  fun w =>
    (Ret tt, CWorld (env w) (console w ++ [OutTraceback e]) (steps_run w)).

(** [format_log_to_messages], lines 50-57. *)
Definition format_log_to_messages (intermediate_steps : list AgentStep)
    : list message :=
  flat_map
    (fun '(action, observation) =>
       [AIMessage (log action);
        HumanMessage ("Observation: " +:+ observation)])
    intermediate_steps.

(** Modelled from the spec: the loop of the agent is LangChain's
    [AgentExecutor], which is not part of the sources at hand.  The
    specification describes it as the sequential plan, act, observe cycle
    that iterates up to a hard ceiling of steps and gives a bounded-failure
    result when the ceiling is reached.  [executor_loop] is that cycle with
    [budget] standing for [max_iterations - iterations]: while it is
    positive a pass is taken, an [AgentFinish] ends the run with its return
    values, anything else is appended to the intermediate steps; when it
    reaches zero the stopped response is returned.  [executor_while] below
    writes the same loop with its counter and its guard, and
    [executor_loop_is_while] relates the two. *)
Definition stopped_response : list (string * pyval) :=
  [("output", VStr "Agent stopped due to iteration limit or time limit.")].

Fixpoint executor_loop (budget : nat) (intermediate_steps : list AgentStep)
    : M cworld (list (string * pyval)) :=
  match budget with
  | O => ret stopped_response
  | S budget' =>
      (out <- call_take_next_step intermediate_steps ;;
       match out with
       | AgentFinish return_values => ret return_values
       | AgentSteps new_steps =>
           executor_loop budget' (intermediate_steps ++ new_steps)
       end)%py
  end.

(** [executor.ainvoke(inputs)]: the inputs merged with the outputs. *)
Definition ainvoke (executor : AgentExecutor)
    (inputs : list (string * pyval)) : M cworld pyval :=
  (outputs <- executor_loop (max_iterations executor) [] ;;
   ret (VDict (inputs ++ outputs)))%py.

(** Lines 78-85. *)
Definition agent_executor : AgentExecutor :=
  {| max_iterations := 5; handle_parsing_errors := true; verbose := true |}.

Definition query : string :=
  "give count of documents in transactions collection in mongo db on date 2025-04-19".

(** The [try] statement of [main], lines 88-102. *)
Definition main_try : M cworld pyval :=
  try_except
    (print [VStr (nl +:+ "📝 QUERY: " +:+ query +:+ nl)] ;;;
     agent_response <- ainvoke agent_executor [("input", VStr query)] ;;
     print [VStr "FINAL RESPONSE:"; agent_response] ;;;
     ret agent_response)%py
    except_Exception
    (fun e =>
       print [VStr ("Error executing agent: " +:+ exn_str e)] ;;;
       traceback_print_exc e ;;;
       ret (VDict [("error", VStr (exn_str e))]))%py.

(** [main], lines 42-102: the session is opened, the [try] statement runs
    inside the two [async with] blocks, which are left on every exit. *)
Definition main : M cworld pyval :=
  (on_env open_session ;;;
   let agent_scratchpad := format_log_to_messages [] in
   try_finally main_try (on_env close_session))%py.

(** Lines 105-106. *)
Definition script : M cworld unit :=
  (agent_response <- main ;;
   print [VStr "Final result:"; agent_response])%py.

End ClientModel.

Arguments CWorld {Env} env console steps_run.
Arguments on_env {Env} f.
Arguments executor_loop {Env} take_next_step budget intermediate_steps.
Arguments ainvoke {Env} take_next_step executor inputs.
Arguments main_try {Env} take_next_step.
Arguments main {Env} open_session close_session take_next_step.
Arguments env {Env} c.
Arguments console {Env} c.
Arguments steps_run {Env} c.

(** ** The executor's loop, with its counter *)

Section AgentLoop.

Variable Env : Type.
Variable take_next_step :
  list AgentStep -> Env * list output ->
  outcome next_step * (Env * list output).

(** [tool.return_direct], by the name of the tool. *)
Variable return_direct : string -> bool.

(** The guard of the loop: the passes taken so far against the ceiling.
    Lines 78-85 set no [max_execution_time], so the guard has no time test
    to make. *)
Definition should_continue (executor : AgentExecutor) (iterations : nat)
    : bool :=
  (iterations <? max_iterations executor)%nat.

(** A pass of one step whose tool is [return_direct] ends the run with the
    observation as the output. *)
Definition tool_return (new_steps : list AgentStep)
    : option (list (string * pyval)) :=
  match new_steps with
  | [(action, observation)] =>
      if return_direct (tool action)
      then Some [("output", VStr observation)]
      else None
  | _ => None
  end.

(** Modelled from the spec: the loop of the agent is LangChain's
    [AgentExecutor], which is not part of the sources at hand.  The
    specification describes it as the strictly sequential plan, act,
    observe cycle that iterates up to a hard ceiling of iterations (5 in
    this client) and, on reaching it, gives a bounded-failure result
    instead of looping on.  It is written as the [while] loop it is:
    [iterations] counts the passes taken and is what the guard tests; a
    pass that answers [AgentFinish] ends the run with its return values, a
    [return_direct] tool ends it with its observation, any other pass is
    appended to the intermediate steps and counted; when the guard fails
    the run ends with the stopped response.  A parsing error of the model
    is dealt with inside the pass, under [handle_parsing_errors].  [fuel]
    bounds the recursion of the model only: [None] stands for a loop that
    is still running when the fuel is spent. *)
Fixpoint executor_while (fuel : nat) (executor : AgentExecutor)
    (iterations : nat) (intermediate_steps : list AgentStep)
    : M (cworld Env) (option (list (string * pyval))) :=
  match fuel with
  | O => ret None
  | S fuel' =>
      if should_continue executor iterations then
        (out <- call_take_next_step Env take_next_step intermediate_steps ;;
         match out with
         | AgentFinish return_values => ret (Some return_values)
         | AgentSteps new_steps =>
             let intermediate_steps := intermediate_steps ++ new_steps in
             match tool_return new_steps with
             | Some return_values => ret (Some return_values)
             | None =>
                 executor_while fuel' executor (S iterations)
                   intermediate_steps
             end
         end)%py
      else ret (Some stopped_response)
  end.

End AgentLoop.

Arguments executor_while {Env} take_next_step return_direct fuel executor
  iterations intermediate_steps.

(** ** Observations on a run of the server *)

(** The pipelines handed to the driver, in the order of the calls. *)
Fixpoint executed_pipelines (t : list event) : list (list pyval) :=
  match t with
  | [] => []
  | EvAggregate _ _ _ stages :: t' => stages :: executed_pipelines t'
  | _ :: t' => executed_pipelines t'
  end.

(** What the tool makes of the driver's answer, line 193. *)
Definition tool_result (r : outcome (list pyval)) : outcome pyval :=
  match r with
  | Ret [] => Ret (VStr no_results)
  | Ret (doc :: docs) => Ret (VList (doc :: docs))
  | Raise e => Raise e
  end.

(** The message of the first parse that fails, [start] before [end], as
    the [try] block of lines 176-178 meets them. *)
Definition parse_failure (fromisoformat : string -> string + datetime)
    (s e : string) : option string :=
  match fromisoformat s with
  | inl msg => Some msg
  | inr _ =>
      match fromisoformat e with
      | inl msg => Some msg
      | inr _ => None
      end
  end.

(** [needle] occurs in [s]. *)
Definition contains (s needle : string) : Prop :=
  exists before after, s = before +:+ needle +:+ after.

Section RunShape.

Context {Database : Type}.
Variable aggregate :
  Database -> string -> string -> list pyval ->
  outcome (list pyval) * Database.
Variable fromisoformat : string -> string + datetime.

(** Whatever the arguments, a run ends in one of two ways: the soft
    failure on a bound that does not parse, or one call of the driver on
    the caller's stages, with or without the date stage in front. *)
Inductive run_shape (ctx : Context) (stages : list pyval)
    (start end_ : option string) (w : world Database)
    : outcome pyval * world Database -> Prop :=
| shape_soft_failure s e msg :
    start = Some s -> end_ = Some e -> s <> "" -> e <> "" ->
    parse_failure fromisoformat s e = Some msg ->
    run_shape ctx stages start end_ w
      (Ret (VStr (invalid_date_prefix +:+ msg)),
       World (<[fresh (dom (heap w)) := []]> (heap w))
         (database w) (trace w))
| shape_executed final r d' :
    aggregate (database w) "fundaura" "transactions" final = (r, d') ->
    (truthy start && truthy end_ = false /\ final = stages
     \/ exists s e ds de,
          start = Some s /\ end_ = Some e /\
          fromisoformat s = inr ds /\ fromisoformat e = inr de /\
          final = date_match_stage ds de :: stages) ->
    run_shape ctx stages start end_ w
      (tool_result r,
       World (<[fresh (dom (heap w)) := final]> (heap w)) d'
         (trace w ++ [EvAggregate (db (lifespan_context ctx))
                        "fundaura" "transactions" final])).

End RunShape.

(** ** Observations on a run of the client *)

Section WhileEnd.

Context {Env : Type}.
Variable take_next_step :
  list AgentStep -> Env * list output ->
  outcome next_step * (Env * list output).
Variable return_direct : string -> bool.

(** How a run of the loop can end when [ceiling] passes are still allowed:
    a pass raised, a pass answered with [AgentFinish], a [return_direct]
    tool was called, or every allowed pass was taken and the stopped
    response is the result.  In no case is the loop still running. *)
Inductive while_end (ceiling : nat) (w : cworld Env)
    : outcome (option (list (string * pyval))) * cworld Env -> Prop :=
| end_raised steps ew ew' e w' :
    take_next_step steps ew = (Raise e, ew') ->
    (steps_run w' <= steps_run w + ceiling)%nat ->
    while_end ceiling w (Raise e, w')
| end_finished steps ew ew' return_values w' :
    take_next_step steps ew = (Ret (AgentFinish return_values), ew') ->
    (steps_run w' <= steps_run w + ceiling)%nat ->
    while_end ceiling w (Ret (Some return_values), w')
| end_returned_direct steps ew ew' action observation w' :
    take_next_step steps ew
    = (Ret (AgentSteps [(action, observation)]), ew') ->
    return_direct (tool action) = true ->
    (steps_run w' <= steps_run w + ceiling)%nat ->
    while_end ceiling w (Ret (Some [("output", VStr observation)]), w')
| end_stopped w' :
    steps_run w' = (steps_run w + ceiling)%nat ->
    while_end ceiling w (Ret (Some stopped_response), w').

(** A model that always goes on: every pass answers with more steps and
    calls no [return_direct] tool. *)
Definition always_continues : Prop :=
  forall steps ew,
    exists new_steps ew',
      take_next_step steps ew = (Ret (AgentSteps new_steps), ew')
      /\ tool_return return_direct new_steps = None.

End WhileEnd.

(** ** Instances of the parameters, to run the model on concrete calls *)

(** A parser for the two forms the tool's docstring shows, [YYYY-MM-DD] and
    [YYYY-MM-DDTHH:MM:SS] (a space is accepted for [T]).  A string of
    another form is rejected as CPython rejects it, with the message
    [Invalid isoformat string: '...']; a field out of range, with the
    message of the [datetime] constructor. *)
Definition digit (c : ascii) : option Z :=
  let n := Z.of_nat (nat_of_ascii c) in
  if (48 <=? n) && (n <=? 57) then Some (n - 48) else None.

Fixpoint number (cs : list ascii) (acc : Z) : option Z :=
  match cs with
  | [] => Some acc
  | c :: cs' =>
      match digit c with
      | Some d => number cs' (10 * acc + d)
      | None => None
      end
  end.

Definition is_leap (y : Z) : bool :=
  (y mod 4 =? 0) && (negb (y mod 100 =? 0) || (y mod 400 =? 0)).

Definition days_in_month (y m : Z) : Z :=
  if m =? 2 then (if is_leap y then 29 else 28)
  else if (m =? 4) || (m =? 6) || (m =? 9) || (m =? 11) then 30
  else 31.

Definition parse_date (cs : list ascii) : option (Z * Z * Z) :=
  match cs with
  | [y1; y2; y3; y4; "-"%char; m1; m2; "-"%char; d1; d2] =>
      match number [y1; y2; y3; y4] 0, number [m1; m2] 0, number [d1; d2] 0 with
      | Some y, Some m, Some d => Some (y, m, d)
      | _, _, _ => None
      end
  | _ => None
  end.

Definition parse_time (cs : list ascii) : option (Z * Z * Z) :=
  match cs with
  | [] => Some (0, 0, 0)
  | sep :: [h1; h2; ":"%char; m1; m2; ":"%char; s1; s2] =>
      if Ascii.eqb sep "T" || Ascii.eqb sep " " then
        match number [h1; h2] 0, number [m1; m2] 0, number [s1; s2] 0 with
        | Some h, Some m, Some s => Some (h, m, s)
        | _, _, _ => None
        end
      else None
  | _ => None
  end.

Definition fromisoformat_ref (s : string) : string + datetime :=
  let cs := list_ascii_of_string s in
  match parse_date (take 10 cs), parse_time (drop 10 cs) with
  | Some (y, m, d), Some (hh, mm, ss) =>
      if y =? 0 then inl "year 0 is out of range"
      else if negb ((1 <=? m) && (m <=? 12)) then
        inl "month must be in 1..12"
      else if negb ((1 <=? d) && (d <=? days_in_month y m)) then
        inl "day is out of range for month"
      else if negb (hh <=? 23) then inl "hour must be in 0..23"
      else if negb (mm <=? 59) then inl "minute must be in 0..59"
      else if negb (ss <=? 59) then inl "second must be in 0..59"
      else inr (Datetime y m d hh mm ss 0 None)
  | _, _ => inl ("Invalid isoformat string: '" +:+ s +:+ "'")
  end.

(** A transactions collection held as the list of its documents, with an
    [aggregate] that understands [$match] on equal integers or strings and
    on a [$gte]/[$lt] date range, and [$limit]; the driver reports any
    other stage as an [OperationFailure]. *)
Fixpoint assoc (k : string) (kv : list (string * pyval)) : option pyval :=
  match kv with
  | [] => None
  | (k', v) :: kv' => if String.eqb k k' then Some v else assoc k kv'
  end.

Definition datetime_key (d : datetime) : Z :=
  ((((((year d * 13 + month d) * 32 + day d) * 24 + hour d) * 60
      + minute d) * 60 + second d) * 1000000 + microsecond d).

Definition field_matches (doc : pyval) (cond : string * pyval) : bool :=
  match doc with
  | VDict fields =>
      match assoc (fst cond) fields, snd cond with
      | Some (VInt a), VInt b => a =? b
      | Some (VStr a), VStr b => String.eqb a b
      | Some (VDatetime d),
        VDict [("$gte", VDatetime lo); ("$lt", VDatetime hi)] =>
          (datetime_key lo <=? datetime_key d)
          && (datetime_key d <? datetime_key hi)
      | _, _ => false
      end
  | _ => false
  end.

Definition run_stage (stage : pyval) (docs : list pyval)
    : outcome (list pyval) :=
  match stage with
  | VDict [("$match", VDict conds)] =>
      Ret (List.filter (fun doc => forallb (field_matches doc) conds) docs)
  | VDict [("$limit", VInt n)] => Ret (take (Z.to_nat n) docs)
  | _ => Raise (Exn OperationFailure "Unrecognized pipeline stage name")
  end.

Fixpoint run_stages (stages : list pyval) (docs : list pyval)
    : outcome (list pyval) :=
  match stages with
  | [] => Ret docs
  | st :: rest =>
      match run_stage st docs with
      | Ret docs' => run_stages rest docs'
      | Raise e => Raise e
      end
  end.

Definition aggregate_ref (d : list pyval) (dbn coll : string)
    (stages : list pyval) : outcome (list pyval) * list pyval :=
  if String.eqb dbn "fundaura" && String.eqb coll "transactions"
  then (run_stages stages d, d)
  else (run_stages stages [], d).

Definition txn (uid tid : Z) (category : string) (d : datetime) : pyval :=
  VDict [("user_id", VInt uid); ("transaction_id", VInt tid);
         ("category", VStr category); ("date", VDatetime d)].

Definition sample_db : list pyval :=
  [ txn 111 1 "Food" (Datetime 2025 4 19 9 30 0 0 None);
    txn 111 2 "Travel" (Datetime 2025 4 19 18 0 0 0 None);
    txn 222 3 "Food" (Datetime 2025 4 20 0 0 0 0 None) ].

Definition sample_ctx : Context :=
  {| lifespan_context :=
       {| db := {| connection_string := "mongodb://localhost:27017/";
                   db_name := "fundaura";
                   max_pool := 5;
                   server_selection_timeout := 60000 |} |} |}.

(** A store holding the caller's pipeline [stages] at reference [0]. *)
Definition sample_world (stages : list pyval) : world (list pyval) :=
  World {[ 0%nat := stages ]} sample_db [].

Definition user_111 : pyval := VDict [("$match", VDict [("user_id", VInt 111)])].

Definition user_999 : pyval := VDict [("$match", VDict [("user_id", VInt 999)])].

Definition run_ref (stages : list pyval) (start end_ : option string) :=
  query_db_aggregate aggregate_ref fromisoformat_ref
    sample_ctx 0%nat start end_ (sample_world stages).

(** ** Instances for the client *)

Definition session_ok (e : nat) : outcome unit * nat := (Ret tt, e).

Definition count_tool : AgentAction :=
  {| tool := "mongodb_aggregate_query";
     tool_input := VDict [("pipeline", VList [VDict [("$count", VStr "n")]])];
     log := "Action: mongodb_aggregate_query" |}.

(** A model that asks for the same tool call on every pass. *)
Definition step_never_finishes (steps : list AgentStep)
    (ew : nat * list output) : outcome next_step * (nat * list output) :=
  (Ret (AgentSteps [(count_tool, "No results found for the aggregation.")]),
   (S (fst ew), snd ew)).

(** A model that answers after two tool calls. *)
Definition step_finishes_third (steps : list AgentStep)
    (ew : nat * list output) : outcome next_step * (nat * list output) :=
  if (length steps <? 2)%nat
  then (Ret (AgentSteps [(count_tool, "[{'n': 2}]")]), (S (fst ew), snd ew))
  else (Ret (AgentFinish [("output", VStr "There are 2 documents.")]), ew).

(** A provider that fails with [e] on the first request. *)
Definition step_raises (e : exn) (steps : list AgentStep)
    (ew : nat * list output) : outcome next_step * (nat * list output) :=
  (Raise e, ew).

Definition client_start : cworld nat := CWorld 0%nat [] 0%nat.

(** ** The tool's plan *)

(** What the arguments of [query_db_aggregate] decide before any call of
    the driver: the message of the soft failure, or the pipeline the driver
    is going to be given. *)
Definition planned_pipeline (fromisoformat : string -> string + datetime)
    (stages : list pyval) (start end_ : option string)
    : string + list pyval :=
  if truthy start && truthy end_ then
    match start, end_ with
    | Some s, Some e =>
        match fromisoformat s with
        | inl msg => inl msg
        | inr start_dt =>
            match fromisoformat e with
            | inl msg => inl msg
            | inr end_dt => inr (date_match_stage start_dt end_dt :: stages)
            end
        end
    | _, _ => inr stages
    end
  else inr stages.

(** ** The scratchpad loop *)

(** [format_log_to_messages] as the source writes it, lines 52-57: the list
    [thoughts] grows by two messages per step. *)
Fixpoint format_log_loop (thoughts : list message)
    (intermediate_steps : list AgentStep) : list message :=
  match intermediate_steps with
  | [] => thoughts
  | (action, observation) :: rest =>
      let thoughts := thoughts ++ [AIMessage (log action)] in
      let human_message := HumanMessage ("Observation: " +:+ observation) in
      let thoughts := thoughts ++ [human_message] in
      format_log_loop thoughts rest
  end.

(** ** The ReAct client, [mcp_client2.py] *)

(** The two context managers of [run_agent]. *)
Inductive resource :=
| StdioClient
| Session.

(** [Enter r] is logged when [r.__aenter__] has returned, [Exit r] when
    [r.__aexit__] is called. *)
Inductive session_event :=
| Enter (r : resource)
| Exit (r : resource).

Record StdioServerParameters := {
  command : string;
  args : list string
}.

(** Line 22. *)
Definition server_params : StdioServerParameters :=
  {| command := "python"; args := ["D://fundaura-chatbot//mcp_server.py"] |}.

Section ReactClientModel.

(** The outside of the client, as in the structured-chat client, and the
    values the libraries hand back: the stream pair, the session, the tools
    and the agent built from them ([create_react_agent(model, tools)], with
    the module's [model]). *)
Variable Env : Type.
Variable Streams : Type.
Variable SessionHandle : Type.
Variable Tools : Type.
Variable Agent : Type.

Record rworld := RWorld {
  renv : Env;
  rconsole : list output;
  rlog : list session_event
}.

(** A library call: it acts on the outside and on the console, and may
    raise. *)
Definition step (A : Type) : Type :=
  Env * list output -> outcome A * (Env * list output).

Variable stdio_client_enter : StdioServerParameters -> step Streams.
Variable stdio_client_exit : Streams -> step unit.
Variable ClientSession_enter : Streams -> step SessionHandle.
Variable ClientSession_exit : SessionHandle -> step unit.
Variable session_initialize : SessionHandle -> step unit.
Variable load_mcp_tools : SessionHandle -> step Tools.
Variable create_react_agent : Tools -> step Agent.
Variable agent_ainvoke : Agent -> list (string * pyval) -> step pyval.

Definition call {A} (f : step A) : M rworld A :=
  fun w =>
    let '(r, (e', c')) := f (renv w, rconsole w) in
    (r, RWorld e' c' (rlog w)).

Definition record (ev : session_event) : M rworld unit :=
  fun w => (Ret tt, RWorld (renv w) (rconsole w) (rlog w ++ [ev])).

(** [async with cm as x: body]: the body runs only when [__aenter__] has
    returned, and then [__aexit__] is called on every exit of the body.
    Neither of the two managers used here swallows the exception it is
    handed. *)
Definition async_with {A B} (r : resource) (aenter : step A)
    (aexit : A -> step unit) (body : A -> M rworld B) : M rworld B :=
  (x <- call aenter ;;
   record (Enter r) ;;;
   try_finally (body x) (record (Exit r) ;;; call (aexit x)))%py.

Definition react_query : string :=
  "can you tell me how total amount spent on day date 2025-02-19. Query from transaction collection".

(** [run_agent], lines 28-38. *)
Definition run_agent : M rworld pyval :=
  async_with StdioClient (stdio_client_enter server_params) stdio_client_exit
    (fun streams =>
       async_with Session (ClientSession_enter streams) ClientSession_exit
         (fun session =>
            (call (session_initialize session) ;;;
             tools <- call (load_mcp_tools session) ;;
             agent <- call (create_react_agent tools) ;;
             agent_response <-
               call (agent_ainvoke agent [("messages", VStr react_query)]) ;;
             ret agent_response)%py)).

End ReactClientModel.

Arguments RWorld {Env} renv rconsole rlog.
Arguments renv {Env} r.
Arguments rconsole {Env} r.
Arguments rlog {Env} r.
Arguments call {Env A} f.
Arguments record {Env} ev.
Arguments async_with {Env A B} r aenter aexit body.
Arguments run_agent {Env Streams SessionHandle Tools Agent}
  stdio_client_enter stdio_client_exit ClientSession_enter ClientSession_exit
  session_initialize load_mcp_tools create_react_agent agent_ainvoke.

(** The three logs a run of [run_agent] can add: nothing entered, only the
    stdio client entered, both entered; every entry is matched by its exit,
    the inner one first. *)
Definition balanced_logs : list (list session_event) :=
  [ [];
    [Enter StdioClient; Exit StdioClient];
    [Enter StdioClient; Enter Session; Exit Session; Exit StdioClient] ].

(** ** Instances for the ReAct client *)

Definition ok_step {A} (a : A) (ew : nat * list output)
    : outcome A * (nat * list output) :=
  (Ret a, (S (fst ew), snd ew)).

Definition failing_step {A} (e : exn) (ew : nat * list output)
    : outcome A * (nat * list output) :=
  (Raise e, ew).

Definition react_start : rworld nat := RWorld 0%nat [] [].

Definition react_answer : pyval :=
  VDict [("messages", VList [VStr "You spent 120.5 on 2025-02-19."])].

(** A run in which every library call succeeds. *)
Definition run_agent_ok : outcome pyval * rworld nat :=
  run_agent (fun _ => ok_step tt) (fun _ => ok_step tt)
    (fun _ => ok_step tt) (fun _ => ok_step tt)
    (fun _ => ok_step tt) (fun _ => ok_step tt)
    (fun _ => ok_step tt) (fun _ _ => ok_step react_answer) react_start.

(** A run in which the provider refuses the request. *)
Definition run_agent_refused : outcome pyval * rworld nat :=
  run_agent (fun _ => ok_step tt) (fun _ => ok_step tt)
    (fun _ => ok_step tt) (fun _ => ok_step tt)
    (fun _ => ok_step tt) (fun _ => ok_step tt)
    (fun _ => ok_step tt)
    (fun _ _ => failing_step (Exn RuntimeError "Error code: 401 - Invalid API Key"))
    react_start.

(** A store with the caller's pipeline at [0] and the same stages behind a
    date stage at [1]. *)
Definition two_pipelines (front : pyval) (stages : list pyval)
    : world (list pyval) :=
  World {[ 0%nat := stages; 1%nat := front :: stages ]} sample_db [].

(** A driver whose server cannot be reached. *)
Definition aggregate_down (d : list pyval) (dbn coll : string)
    (stages : list pyval) : outcome (list pyval) * list pyval :=
  (Raise (Exn ConnectionFailure "localhost:27017: connection refused"), d).

(** * Properties of the tool server *)

Section ServerProperties.

Context {Database : Type}.
Variable aggregate :
  Database -> string -> string -> list pyval ->
  outcome (list pyval) * Database.
Variable fromisoformat : string -> string + datetime.


Implicit Types (w : world Database) (p : loc) (stages : list pyval).

Lemma executed_pipelines_app (t1 t2 : list event) :
  executed_pipelines (t1 ++ t2)
  = executed_pipelines t1 ++ executed_pipelines t2.
Proof.
  induction t1 as [|ev t1 IH]; simpl; [reflexivity|].
  destruct ev; simpl; rewrite IH; reflexivity.
Qed.

Lemma fresh_not_allocated w p stages :
  heap w !! p = Some stages -> fresh (dom (heap w)) <> p.
Proof.
  intros Hp Heq.
  apply (is_fresh (dom (heap w))).
  rewrite Heq. apply elem_of_dom. eauto.
Qed.

Lemma truthy_Some (o : option string) :
  truthy o = true -> exists s, o = Some s /\ s <> "".
Proof.
  destruct o as [s|]; simpl; [|discriminate].
  intros H. exists s. split; [reflexivity|].
  intros ->. discriminate.
Qed.

Lemma truthy_nonempty (s : string) : s <> "" -> truthy (Some s) = true.
Proof.
  intros H. simpl. destruct (String.eqb_spec s ""); [contradiction|reflexivity].
Qed.

(** The run when the date branch is not taken: the caller's stages are
    copied into the fresh list and handed to the driver. *)
Lemma run_without_dates ctx p stages start end_ w :
  truthy start && truthy end_ = false ->
  heap w !! p = Some stages ->
  query_db_aggregate aggregate fromisoformat ctx p start end_ w
  = let (r, d') :=
      aggregate (database w) "fundaura" "transactions" stages in
    (tool_result r,
     World (<[fresh (dom (heap w)) := stages]> (heap w)) d'
       (trace w ++ [EvAggregate (db (lifespan_context ctx))
                      "fundaura" "transactions" stages])).
Proof.
  intros Hfalsy Hp.
  pose proof (fresh_not_allocated w p stages Hp) as Hne.
  unfold query_db_aggregate, bind, new_list. simpl.
  rewrite Hfalsy. unfold ret, list_extend, collection_aggregate, bind,
    read_list. simpl.
  rewrite lookup_insert_ne by exact Hne. rewrite Hp.
  rewrite lookup_insert_eq. simpl.
  rewrite lookup_insert_eq. rewrite insert_insert_eq.
  cbn [heap database trace].
  destruct (aggregate (database w) "fundaura" "transactions" stages)
    as [[[|doc docs]|e] d']; reflexivity.
Qed.

(** The run when both bounds are given and parse. *)
Lemma run_with_dates ctx p stages s e ds de w :
  s <> "" -> e <> "" ->
  fromisoformat s = inr ds ->
  fromisoformat e = inr de ->
  heap w !! p = Some stages ->
  query_db_aggregate aggregate fromisoformat ctx p (Some s) (Some e) w
  = let final := date_match_stage ds de :: stages in
    let (r, d') :=
      aggregate (database w) "fundaura" "transactions" final in
    (tool_result r,
     World (<[fresh (dom (heap w)) := final]> (heap w)) d'
       (trace w ++ [EvAggregate (db (lifespan_context ctx))
                      "fundaura" "transactions" final])).
Proof.
  intros Hs He Hps Hpe Hp.
  pose proof (fresh_not_allocated w p stages Hp) as Hne.
  unfold query_db_aggregate.
  rewrite (truthy_nonempty s Hs), (truthy_nonempty e He).
  unfold bind, new_list. simpl. unfold try_except, bind, datetime_fromisoformat.
  rewrite Hps, Hpe. unfold ret, list_append. simpl.
  rewrite lookup_insert_eq. simpl.
  unfold list_extend, collection_aggregate, bind, read_list. simpl.
  rewrite insert_insert_eq.
  rewrite lookup_insert_ne by exact Hne. rewrite Hp.
  rewrite lookup_insert_eq. simpl.
  rewrite lookup_insert_eq. rewrite insert_insert_eq.
  cbn [heap database trace].
  destruct (aggregate (database w) "fundaura" "transactions"
              (date_match_stage ds de :: stages))
    as [[[|doc docs]|ex] d']; reflexivity.
Qed.

(** The run when both bounds are given and one does not parse: only the
    fresh, empty list has been created when the function returns. *)
Lemma run_with_bad_dates ctx p s e msg w :
  s <> "" -> e <> "" ->
  parse_failure fromisoformat s e = Some msg ->
  query_db_aggregate aggregate fromisoformat ctx p (Some s) (Some e) w
  = (Ret (VStr (invalid_date_prefix +:+ msg)),
     World (<[fresh (dom (heap w)) := []]> (heap w))
       (database w) (trace w)).
Proof.
  intros Hs He Hfail.
  unfold query_db_aggregate.
  rewrite (truthy_nonempty s Hs), (truthy_nonempty e He).
  unfold bind, new_list. simpl. unfold try_except, bind, datetime_fromisoformat.
  unfold parse_failure in Hfail.
  destruct (fromisoformat s) as [m1|d1].
  - injection Hfail as ->. reflexivity.
  - destruct (fromisoformat e) as [m2|d2]; [|discriminate].
    injection Hfail as ->. reflexivity.
Qed.

Lemma run_has_shape ctx p stages start end_ w :
  heap w !! p = Some stages ->
  run_shape aggregate fromisoformat ctx stages start end_ w
    (query_db_aggregate aggregate fromisoformat ctx p start end_ w).
Proof.
  intros Hp.
  destruct (truthy start && truthy end_) eqn:Htruthy.
  - apply andb_prop in Htruthy as [Hs He].
    apply truthy_Some in Hs as (s & -> & Hs).
    apply truthy_Some in He as (e & -> & He).
    destruct (parse_failure fromisoformat s e) as [msg|] eqn:Hfail.
    + rewrite (run_with_bad_dates ctx p s e msg w Hs He Hfail).
      eapply shape_soft_failure; eauto.
    + unfold parse_failure in Hfail.
      destruct (fromisoformat s) as [?|ds] eqn:Hps; [discriminate|].
      destruct (fromisoformat e) as [?|de] eqn:Hpe; [discriminate|].
      rewrite (run_with_dates ctx p stages s e ds de w Hs He Hps Hpe Hp).
      cbv zeta.
      destruct (aggregate (database w) "fundaura" "transactions"
                  (date_match_stage ds de :: stages)) as [r d'] eqn:Hagg.
      eapply shape_executed; [exact Hagg|].
      right. exists s, e, ds, de. auto.
  - rewrite (run_without_dates ctx p stages start end_ w Htruthy Hp).
    destruct (aggregate (database w) "fundaura" "transactions" stages)
      as [r d'] eqn:Hagg.
    eapply shape_executed; [exact Hagg|]. left. auto.
Qed.

Lemma executed_pipelines_snoc (t : list event) h dbn coll stages :
  executed_pipelines (t ++ [EvAggregate h dbn coll stages])
  = executed_pipelines t ++ [stages].
Proof. rewrite executed_pipelines_app. reflexivity. Qed.

Lemma snoc_not_self {A} (l : list A) (x : A) : l <> l ++ [x].
Proof.
  intros H. apply (f_equal (@length A)) in H.
  rewrite length_app in H. simpl in H. lia.
Qed.

Lemma append_empty_r (s : string) : s +:+ "" = s.
Proof.
  induction s as [|c s IH]; [reflexivity|].
  change (String c (s +:+ "") = String c s). rewrite IH. reflexivity.
Qed.

Lemma error_text_names_format (msg : string) :
  contains (invalid_date_prefix +:+ msg)
    "ISO format (e.g., '2025-04-19T00:00:00')".
Proof.
  exists "Invalid date format. Use ", (". Error: " +:+ msg). reflexivity.
Qed.

Lemma error_text_carries_message (msg : string) :
  contains (invalid_date_prefix +:+ msg) msg.
Proof.
  exists invalid_date_prefix, "". rewrite append_empty_r. reflexivity.
Qed.

(** ** The date stage *)

(** C1: when both [start] and [end] are given and parse, the pipeline that is
    executed is the [$match] stage that keeps [date] in [[start, end)]
    ([$gte] the parsed start, [$lt] the parsed end) followed by the caller's
    stages in their order: the driver's [aggregate] is called exactly once,
    on that pipeline, on [fundaura.transactions] through the handle of the
    context; the tool's result is made of the driver's answer to it and the
    database is the one that call left.  The order of the two bounds plays
    no part, so the case [start < end] is covered.  The first premise is the
    library's: the empty string is not an ISO date. *)
Theorem date_range_prepended ctx p stages s e ds de w :
  (forall d, fromisoformat "" <> inr d) ->
  heap w !! p = Some stages ->
  fromisoformat s = inr ds ->
  fromisoformat e = inr de ->
  let final :=
    VDict [("$match",
            VDict [("date", VDict [("$gte", VDatetime ds);
                                   ("$lt", VDatetime de)])])]
    :: stages in
  let run :=
    query_db_aggregate aggregate fromisoformat ctx p (Some s) (Some e) w in
  executed_pipelines (trace (snd run))
  = executed_pipelines (trace w) ++ [final]
  /\ trace (snd run)
     = trace w ++ [EvAggregate (db (lifespan_context ctx))
                     "fundaura" "transactions" final]
  /\ fst run
     = tool_result
         (fst (aggregate (database w) "fundaura" "transactions" final))
  /\ database (snd run)
     = snd (aggregate (database w) "fundaura" "transactions" final).
Proof.
  intros Hempty Hp Hps Hpe final run. subst run final.
  assert (Hs : s <> "") by (intros ->; exact (Hempty ds Hps)).
  assert (He : e <> "") by (intros ->; exact (Hempty de Hpe)).
  rewrite (run_with_dates ctx p stages s e ds de w Hs He Hps Hpe Hp).
  cbv zeta. unfold date_match_stage.
  destruct (aggregate (database w) "fundaura" "transactions" _) as [r d'].
  cbn [fst snd trace database]. repeat split.
  apply executed_pipelines_snoc.
Qed.


(** C3, as amended: when [start] and [end] are both given and non-empty and
    at least one of them does not parse, the tool raises nothing and returns
    a string that names the expected format and ends with the message of
    the parse error, the one for [start] if [start] is at fault and the one
    for [end] otherwise. *)
Theorem nonempty_bad_dates_error_string ctx p s e w :
  s <> "" -> e <> "" ->
  (exists m, fromisoformat s = inl m) \/ (exists m, fromisoformat e = inl m) ->
  exists msg text,
    (fromisoformat s = inl msg
     \/ (exists ds, fromisoformat s = inr ds) /\ fromisoformat e = inl msg)
    /\ fst (query_db_aggregate aggregate fromisoformat ctx p (Some s) (Some e) w) = Ret (VStr text)
    /\ text = invalid_date_prefix +:+ msg
    /\ contains text "ISO format (e.g., '2025-04-19T00:00:00')"
    /\ contains text msg.
Proof.
  intros Hs He Hbad.
  assert (exists msg,
             parse_failure fromisoformat s e = Some msg
             /\ (fromisoformat s = inl msg
                 \/ (exists ds, fromisoformat s = inr ds)
                    /\ fromisoformat e = inl msg)) as (msg & Hfail & Hwhich).
  { unfold parse_failure.
    destruct (fromisoformat s) as [m1|ds] eqn:Hps.
    - exists m1. auto.
    - destruct (fromisoformat e) as [m2|de] eqn:Hpe.
      + exists m2. split; [reflexivity|]. right. eauto.
      + destruct Hbad as [[m Hm]|[m Hm]]; discriminate. }
  exists msg, (invalid_date_prefix +:+ msg).
  rewrite (run_with_bad_dates ctx p s e msg w Hs He Hfail).
  repeat split; auto using error_text_names_format, error_text_carries_message.
Qed.

(** ** The result *)

(** C4: whenever a run calls the driver, on [final] say, its result is decided
    by the driver's answer: no document gives the sentinel string, at least
    one document gives the list of documents; the result is never the empty
    list. *)
Theorem empty_result_sentinel ctx p stages start end_ w final :
  heap w !! p = Some stages ->
  let run := query_db_aggregate aggregate fromisoformat ctx p start end_ w in
  executed_pipelines (trace (snd run))
  = executed_pipelines (trace w) ++ [final] ->
  (forall d',
      aggregate (database w) "fundaura" "transactions" final = (Ret [], d') ->
      fst run = Ret (VStr "No results found for the aggregation."))
  /\ (forall doc docs d',
        aggregate (database w) "fundaura" "transactions" final
        = (Ret (doc :: docs), d') ->
        fst run = Ret (VList (doc :: docs)))
  /\ fst run <> Ret (VList []).
Proof.
  intros Hp run Hexec. subst run.
  destruct (run_has_shape ctx p stages start end_ w Hp)
    as [s e msg _ _ _ _ _ | final0 r d0 Hagg _].
  - cbn [snd trace] in Hexec. exfalso. exact (snoc_not_self _ _ Hexec).
  - cbn [snd trace] in Hexec. rewrite executed_pipelines_snoc in Hexec.
    apply app_inv_head in Hexec. injection Hexec as ->.
    cbn [fst]. rewrite Hagg. repeat split.
    + intros d' [= -> _]. reflexivity.
    + intros doc docs d' [= -> _]. reflexivity.
    + destruct r as [[|doc docs]|ex]; simpl; discriminate.
Qed.

(** ** Partial ranges and the failure path *)

(** C8: when [start] or [end] is absent or is the empty string, the date
    branch is skipped: the driver is called on the caller's stages as they
    are, the result is what the driver's answer gives, and it is not the
    date-format error. *)
Theorem partial_range_ignored ctx p stages start end_ w :
  heap w !! p = Some stages ->
  start = None \/ end_ = None \/ start = Some "" \/ end_ = Some "" ->
  let run := query_db_aggregate aggregate fromisoformat ctx p start end_ w in
  executed_pipelines (trace (snd run))
  = executed_pipelines (trace w) ++ [stages]
  /\ fst run
     = tool_result
         (fst (aggregate (database w) "fundaura" "transactions" stages))
  /\ (forall msg, fst run <> Ret (VStr (invalid_date_prefix +:+ msg))).
Proof.
  intros Hp Hpartial run. subst run.
  assert (Hfalsy : truthy start && truthy end_ = false).
  { destruct Hpartial as [-> | [-> | [-> | ->]]];
      first [reflexivity | apply andb_false_r]. }
  rewrite (run_without_dates ctx p stages start end_ w Hfalsy Hp).
  destruct (aggregate (database w) "fundaura" "transactions" stages)
    as [r d'].
  cbn [fst snd trace]. repeat split.
  - apply executed_pipelines_snoc.
  - intros msg. destruct r as [[|doc docs]|ex]; simpl; discriminate.
Qed.

(** C9: when a bound fails to parse, the error string is returned with the
    driver never called and the database as it was. *)
Theorem bad_dates_no_database_access ctx p s e msg w :
  s <> "" -> e <> "" ->
  parse_failure fromisoformat s e = Some msg ->
  let run := query_db_aggregate aggregate fromisoformat ctx p (Some s) (Some e) w in
  fst run = Ret (VStr (invalid_date_prefix +:+ msg))
  /\ trace (snd run) = trace w
  /\ database (snd run) = database w.
Proof.
  intros Hs He Hfail run. subst run.
  rewrite (run_with_bad_dates ctx p s e msg w Hs He Hfail).
  repeat split.
Qed.

(** C10: the list object passed as [pipeline] holds the same stages after
    the call as before, on every path; so does every other list that
    existed before the call.  Only the fresh [final_pipeline] is written. *)
Theorem pipeline_argument_unchanged ctx p stages start end_ w :
  heap w !! p = Some stages ->
  let w' := snd (query_db_aggregate aggregate fromisoformat ctx p start end_ w) in
  heap w' !! p = Some stages
  /\ (forall l xs, heap w !! l = Some xs -> heap w' !! l = Some xs).
Proof.
  intros Hp w'.
  assert (Hframe : forall l xs,
             heap w !! l = Some xs -> heap w' !! l = Some xs).
  { intros l xs Hl. subst w'.
    pose proof (fresh_not_allocated w l xs Hl) as Hne.
    destruct (run_has_shape ctx p stages start end_ w Hp);
      cbn [snd heap]; rewrite lookup_insert_ne by exact Hne; exact Hl. }
  split; [apply Hframe; exact Hp | exact Hframe].
Qed.

(** ** The lifespan *)

(** C5: the connection is made before the body starts, and whatever the body
    does, return or raise, the close of that connection follows it; the
    outcome of the body is the outcome of the lifespan. *)
Theorem lifespan_closes_connection {A}
    (body : AppContext -> M (world Database) A) w :
  let h := {| connection_string := "mongodb://localhost:27017/";
              db_name := "fundaura";
              max_pool := 5;
              server_selection_timeout := 60000 |} in
  let w0 := World (heap w) (database w)
              (trace w ++ [EvLogInfo "Starting MongoDB connection...";
                           EvConnect h]) in
  let r := fst (body {| db := h |} w0) in
  let w1 := snd (body {| db := h |} w0) in
  app_lifespan body w
  = (r, World (heap w1) (database w1)
          (trace w1 ++ [EvClose h; EvPrint "Closed MongoDB connection"])).
Proof.
  intros h w0 r w1. subst r w1.
  unfold app_lifespan, bind, emit, try_finally.
  cbn [heap database trace].
  rewrite <- app_assoc. cbn [app]. fold h. fold w0.
  destruct (body {| db := h |} w0) as [r w1].
  cbn [fst snd]. rewrite <- app_assoc. reflexivity.
Qed.

End ServerProperties.

(** ** The server on concrete calls *)

Lemma date_range_prepended_witness :
  executed_pipelines
    (trace (snd (run_ref [user_111] (Some "2025-04-19T00:00:00")
                   (Some "2025-04-20T00:00:00"))))
  = [ [ VDict [("$match",
                VDict [("date",
                        VDict [("$gte", VDatetime (Datetime 2025 4 19 0 0 0 0 None));
                               ("$lt", VDatetime (Datetime 2025 4 20 0 0 0 0 None))])])];
        user_111 ] ]
  /\ fst (run_ref [user_111] (Some "2025-04-19T00:00:00")
            (Some "2025-04-20T00:00:00"))
     = Ret (VList [ txn 111 1 "Food" (Datetime 2025 4 19 9 30 0 0 None);
                    txn 111 2 "Travel" (Datetime 2025 4 19 18 0 0 0 None) ]).
Proof.
  destruct (date_range_prepended aggregate_ref fromisoformat_ref sample_ctx
              0%nat [user_111] "2025-04-19T00:00:00" "2025-04-20T00:00:00"
              (Datetime 2025 4 19 0 0 0 0 None)
              (Datetime 2025 4 20 0 0 0 0 None)
              (sample_world [user_111]))
    as (Hexec & _ & Hres & _).
  - intros d. vm_compute. discriminate.
  - reflexivity.
  - reflexivity.
  - reflexivity.
  - split; [exact Hexec | exact Hres].
Defined.



Lemma nonempty_bad_dates_error_string_witness :
  exists msg text,
    (fromisoformat_ref "2025-04-19" = inl msg
     \/ (exists ds, fromisoformat_ref "2025-04-19" = inr ds)
        /\ fromisoformat_ref "19/04/2025" = inl msg)
    /\ fst (run_ref [user_111] (Some "2025-04-19") (Some "19/04/2025"))
       = Ret (VStr text)
    /\ text = invalid_date_prefix +:+ msg
    /\ contains text "ISO format (e.g., '2025-04-19T00:00:00')"
    /\ contains text msg.
Proof.
  apply (nonempty_bad_dates_error_string aggregate_ref fromisoformat_ref
           sample_ctx 0%nat "2025-04-19" "19/04/2025"
           (sample_world [user_111])).
  - discriminate.
  - discriminate.
  - right. exists "Invalid isoformat string: '19/04/2025'". reflexivity.
Defined.

(** The call that the unamended C3 gets wrong: both bounds are given and
    neither is an ISO date, yet no error string comes back; the empty
    [start] makes the tool skip the dates and answer the query. *)
Lemma empty_start_is_not_reported :
  fromisoformat_ref "" = inl "Invalid isoformat string: ''"
  /\ fromisoformat_ref "tomorrow" = inl "Invalid isoformat string: 'tomorrow'"
  /\ fst (run_ref [user_111] (Some "") (Some "tomorrow"))
     = Ret (VList [ txn 111 1 "Food" (Datetime 2025 4 19 9 30 0 0 None);
                    txn 111 2 "Travel" (Datetime 2025 4 19 18 0 0 0 None) ])
  /\ executed_pipelines
       (trace (snd (run_ref [user_111] (Some "") (Some "tomorrow"))))
     = [[user_111]].
Proof. repeat split; reflexivity. Qed.

Lemma empty_result_sentinel_witness :
  fst (run_ref [user_999] None None)
  = Ret (VStr "No results found for the aggregation.")
  /\ fst (run_ref [user_111; VDict [("$limit", VInt 1)]] None None)
     = Ret (VList [txn 111 1 "Food" (Datetime 2025 4 19 9 30 0 0 None)]).
Proof.
  split.
  - apply (proj1 (empty_result_sentinel aggregate_ref fromisoformat_ref
                    sample_ctx 0%nat [user_999] None None
                    (sample_world [user_999]) [user_999] eq_refl eq_refl)
             sample_db).
    reflexivity.
  - apply (proj1 (proj2 (empty_result_sentinel aggregate_ref fromisoformat_ref
                    sample_ctx 0%nat [user_111; VDict [("$limit", VInt 1)]]
                    None None
                    (sample_world [user_111; VDict [("$limit", VInt 1)]])
                    [user_111; VDict [("$limit", VInt 1)]] eq_refl eq_refl))
             _ [] sample_db).
    reflexivity.
Defined.

Lemma partial_range_ignored_witness :
  executed_pipelines
    (trace (snd (run_ref [user_111] (Some "2025-04-19T00:00:00") (Some ""))))
  = [[user_111]]
  /\ fst (run_ref [user_111] (Some "2025-04-19T00:00:00") (Some ""))
     = Ret (VList [ txn 111 1 "Food" (Datetime 2025 4 19 9 30 0 0 None);
                    txn 111 2 "Travel" (Datetime 2025 4 19 18 0 0 0 None) ]).
Proof.
  pose proof (partial_range_ignored aggregate_ref fromisoformat_ref
                sample_ctx 0%nat [user_111] (Some "2025-04-19T00:00:00")
                (Some "") (sample_world [user_111]) eq_refl
                (or_intror (or_intror (or_intror eq_refl)))) as H.
  destruct H as (Hexec & Hres & _). split; [exact Hexec | exact Hres].
Defined.

Lemma bad_dates_no_database_access_witness :
  fst (run_ref [user_111] (Some "next week") (Some "2025-04-20"))
  = Ret (VStr "Invalid date format. Use ISO format (e.g., '2025-04-19T00:00:00'). Error: Invalid isoformat string: 'next week'")
  /\ trace (snd (run_ref [user_111] (Some "next week") (Some "2025-04-20")))
     = []
  /\ database (snd (run_ref [user_111] (Some "next week") (Some "2025-04-20")))
     = sample_db.
Proof.
  apply (bad_dates_no_database_access aggregate_ref fromisoformat_ref
           sample_ctx 0%nat "next week" "2025-04-20"
           "Invalid isoformat string: 'next week'" (sample_world [user_111])).
  - discriminate.
  - discriminate.
  - reflexivity.
Defined.

Lemma pipeline_argument_unchanged_witness :
  heap (snd (run_ref [user_111] (Some "2025-04-19T00:00:00")
               (Some "2025-04-20T00:00:00"))) !! 0%nat
  = Some [user_111].
Proof.
  apply (proj1 (pipeline_argument_unchanged aggregate_ref fromisoformat_ref
                  sample_ctx 0%nat [user_111] (Some "2025-04-19T00:00:00")
                  (Some "2025-04-20T00:00:00") (sample_world [user_111])
                  eq_refl)).
Defined.

Example lifespan_closes_after_failure :
  app_lifespan (Database := list pyval)
    (fun _ => raise (Exn KeyboardInterrupt "")) (sample_world [])
  = (Raise (Exn KeyboardInterrupt "") : outcome unit,
     World {[ 0%nat := [] ]} sample_db
       [ EvLogInfo "Starting MongoDB connection...";
         EvConnect (db (lifespan_context sample_ctx));
         EvClose (db (lifespan_context sample_ctx));
         EvPrint "Closed MongoDB connection" ]).
Proof. reflexivity. Qed.

(** * Properties of the client *)

Section ClientProperties.

Context {Env : Type}.
Variable open_session : Env -> outcome unit * Env.
Variable close_session : Env -> outcome unit * Env.
Variable take_next_step :
  list AgentStep -> Env * list output ->
  outcome next_step * (Env * list output).


Implicit Types (w : cworld Env).

Variable return_direct : string -> bool.

Lemma tool_return_cases (new_steps : list AgentStep) return_values :
  tool_return return_direct new_steps = Some return_values ->
  exists action observation,
    new_steps = [(action, observation)]
    /\ return_direct (tool action) = true
    /\ return_values = [("output", VStr observation)].
Proof.
  destruct new_steps as [|[action observation] [|second rest]]; simpl;
    try discriminate.
  destruct (return_direct (tool action)) eqn:Hdirect; [|discriminate].
  intros [= <-]. eauto.
Qed.

(** The loop ends whenever the fuel exceeds the passes still allowed, in one
    of the four ways of [while_end]. *)
Lemma executor_while_ends fuel executor :
  forall iterations steps w,
    (max_iterations executor - iterations < fuel)%nat ->
    while_end take_next_step return_direct
      (max_iterations executor - iterations) w
      (executor_while take_next_step return_direct fuel executor iterations
         steps w).
Proof.
  induction fuel as [|fuel IH]; intros iterations steps w Hfuel; [lia|].
  simpl. unfold should_continue.
  destruct (Nat.ltb_spec iterations (max_iterations executor)) as [Hlt|Hge].
  - unfold bind, call_take_next_step.
    destruct (take_next_step steps (env w, console w))
      as [[[rv|new]|e] [e' c']] eqn:Hstep.
    + eapply end_finished; [exact Hstep|]. simpl. lia.
    + destruct (tool_return return_direct new) as [rv|] eqn:Hdirect.
      * apply tool_return_cases in Hdirect
          as (action & observation & -> & Htool & ->).
        eapply end_returned_direct; [exact Hstep | exact Htool |].
        simpl. lia.
      * assert (Hfuel' : (max_iterations executor - S iterations < fuel)%nat)
          by lia.
        destruct (IH (S iterations) (steps ++ new)
                    (CWorld e' c' (S (steps_run w))) Hfuel')
          as [st ew ew' ex w' Hraise Hle
             | st ew ew' rv w' Hfin Hle
             | st ew ew' action observation w' Hdir Htool Hle
             | w' Heq];
          cbn [steps_run] in *.
        -- eapply end_raised; [exact Hraise|]. lia.
        -- eapply end_finished; [exact Hfin|]. lia.
        -- eapply end_returned_direct; [exact Hdir | exact Htool |]. lia.
        -- apply end_stopped. lia.
    + eapply end_raised; [exact Hstep|]. simpl. lia.
  - replace (max_iterations executor - iterations)%nat with 0%nat by lia.
    apply end_stopped. unfold ret. cbn [snd]. lia.
Qed.

(** C6: the executor of the structured-chat client is built with a ceiling
    of 5 iterations.  A run of its loop never takes more than 5 passes
    through the model and the tools, and it is never still running once 5
    passes are taken: it ends by the exception that a pass raised, by the
    final answer of a pass, by a [return_direct] tool, or, with the ceiling
    reached, by the stopped response in place of an answer.  A model that
    never finishes gets exactly 5 passes and then the stopped response. *)
Theorem agent_loop_bounded (fuel : nat) w :
  (5 < fuel)%nat ->
  let run :=
    executor_while take_next_step return_direct fuel agent_executor 0 [] w in
  max_iterations agent_executor = 5%nat
  /\ (steps_run (snd run) <= steps_run w + 5)%nat
  /\ ((exists e steps ew ew',
          take_next_step steps ew = (Raise e, ew') /\ fst run = Raise e)
      \/ (exists return_values steps ew ew',
            take_next_step steps ew
            = (Ret (AgentFinish return_values), ew')
            /\ fst run = Ret (Some return_values))
      \/ (exists action observation steps ew ew',
            take_next_step steps ew
            = (Ret (AgentSteps [(action, observation)]), ew')
            /\ return_direct (tool action) = true
            /\ fst run = Ret (Some [("output", VStr observation)]))
      \/ (steps_run (snd run) = (steps_run w + 5)%nat
          /\ fst run
             = Ret (Some
                      [("output",
                        VStr "Agent stopped due to iteration limit or time limit.")])))
  /\ (always_continues take_next_step return_direct ->
      steps_run (snd run) = (steps_run w + 5)%nat
      /\ fst run
         = Ret (Some
                  [("output",
                    VStr "Agent stopped due to iteration limit or time limit.")])).
Proof.
  intros Hfuel run. subst run. split; [reflexivity|].
  assert (Hfuel' : (max_iterations agent_executor - 0 < fuel)%nat)
    by (cbn; lia).
  pose proof (executor_while_ends fuel agent_executor 0 [] w Hfuel') as Hend.
  change (max_iterations agent_executor - 0)%nat with 5%nat in Hend.
  destruct Hend
    as [st ew ew' ex w' Hraise Hle
       | st ew ew' rv w' Hfin Hle
       | st ew ew' action observation w' Hdir Htool Hle
       | w' Heq]; cbn [fst snd].
  - split; [exact Hle|]. split.
    + left. exists ex, st, ew, ew'. auto.
    + intros Hgo. destruct (Hgo st ew) as (new & ew2 & Hstep & _). congruence.
  - split; [exact Hle|]. split.
    + right. left. exists rv, st, ew, ew'. auto.
    + intros Hgo. destruct (Hgo st ew) as (new & ew2 & Hstep & _). congruence.
  - split; [exact Hle|]. split.
    + right. right. left. exists action, observation, st, ew, ew'. auto.
    + intros Hgo. destruct (Hgo st ew) as (new & ew2 & Hstep & Hnone).
      rewrite Hdir in Hstep. injection Hstep as <- _.
      simpl in Hnone. rewrite Htool in Hnone. discriminate.
  - split; [lia|]. split.
    + right. right. right. auto.
    + intros _. auto.
Qed.

(** The loop that [ainvoke] runs is the [while] loop with the fuel question
    settled, for tools of which none is [return_direct], as the tools that
    [load_mcp_tools] builds. *)
Lemma executor_loop_is_while fuel executor :
  (forall name, return_direct name = false) ->
  forall iterations steps w,
    (max_iterations executor - iterations < fuel)%nat ->
    executor_while take_next_step return_direct fuel executor iterations
      steps w
    = (let (r, w') :=
         executor_loop take_next_step
           (max_iterations executor - iterations) steps w in
       (match r with
        | Ret return_values => Ret (Some return_values)
        | Raise e => Raise e
        end, w')).
Proof.
  intros Hnone.
  assert (Hreturn : forall new, tool_return return_direct new = None).
  { intros [|[action observation] [|second rest]]; simpl; try reflexivity.
    rewrite Hnone. reflexivity. }
  induction fuel as [|fuel IH]; intros iterations steps w Hfuel; [lia|].
  simpl. unfold should_continue.
  destruct (Nat.ltb_spec iterations (max_iterations executor)) as [Hlt|Hge].
  - replace (max_iterations executor - iterations)%nat
      with (S (max_iterations executor - S iterations)) by lia.
    simpl. unfold bind, call_take_next_step.
    destruct (take_next_step steps (env w, console w))
      as [[[rv|new]|e] [e' c']]; try reflexivity.
    rewrite Hreturn. apply IH. lia.
  - replace (max_iterations executor - iterations)%nat with 0%nat by lia.
    reflexivity.
Qed.

(** The [try] statement: an [Exception] raised by the invocation is printed,
    its traceback is printed, and the error object is the value returned. *)
Lemma main_try_catches w e w1 :
  ainvoke take_next_step agent_executor [("input", VStr query)]
    (CWorld (env w)
       (console w ++ [OutPrint [VStr (nl +:+ "📝 QUERY: " +:+ query +:+ nl)]])
       (steps_run w))
  = (Raise e, w1) ->
  is_Exception (exn_cls e) = true ->
  main_try take_next_step w
  = (Ret (VDict [("error", VStr (exn_str e))]),
     CWorld (env w1)
       (console w1 ++ [OutPrint [VStr ("Error executing agent: " +:+ exn_str e)];
                       OutTraceback e])
       (steps_run w1)).
Proof.
  intros Hinv Hexc.
  unfold main_try, try_except, bind, print. cbn [env console steps_run].
  rewrite Hinv. unfold except_Exception. rewrite Hexc.
  unfold traceback_print_exc, ret. cbn [env console steps_run].
  rewrite <- app_assoc. reflexivity.
Qed.

(** An exception that is not an [Exception] passes through the [try]. *)
Lemma main_try_passes w e w1 :
  ainvoke take_next_step agent_executor [("input", VStr query)]
    (CWorld (env w)
       (console w ++ [OutPrint [VStr (nl +:+ "📝 QUERY: " +:+ query +:+ nl)]])
       (steps_run w))
  = (Raise e, w1) ->
  is_Exception (exn_cls e) = false ->
  main_try take_next_step w = (Raise e, w1).
Proof.
  intros Hinv Hexc.
  unfold main_try, try_except, bind, print. cbn [env console steps_run].
  rewrite Hinv. unfold except_Exception. rewrite Hexc. reflexivity.
Qed.

(** C7, as amended: when the agent invocation raises an exception that is an
    instance of [Exception], the exception is caught by the [try] of
    [main], the failure message and the traceback are printed, and,
    provided the session opened and then closes without raising, [main]
    returns the object [{"error": str(e)}] instead of raising.  An exception
    that derives from [BaseException] only is not caught: under the same
    proviso [main] raises it again, and prints nothing for it. *)
Theorem main_returns_error_object w w0 e w1 :
  on_env open_session w = (Ret tt, w0) ->
  ainvoke take_next_step agent_executor [("input", VStr query)]
    (CWorld (env w0)
       (console w0 ++ [OutPrint [VStr (nl +:+ "📝 QUERY: " +:+ query +:+ nl)]])
       (steps_run w0))
  = (Raise e, w1) ->
  (is_Exception (exn_cls e) = true ->
   forall w2,
     on_env close_session
       (CWorld (env w1)
          (console w1
           ++ [OutPrint [VStr ("Error executing agent: " +:+ exn_str e)];
               OutTraceback e])
          (steps_run w1))
     = (Ret tt, w2) ->
     main open_session close_session take_next_step w
     = (Ret (VDict [("error", VStr (exn_str e))]), w2)
     /\ console w2
        = console w1
          ++ [OutPrint [VStr ("Error executing agent: " +:+ exn_str e)];
              OutTraceback e])
  /\ (is_Exception (exn_cls e) = false ->
      forall w2,
        on_env close_session w1 = (Ret tt, w2) ->
        main open_session close_session take_next_step w = (Raise e, w2)
        /\ console w2 = console w1).
Proof.
  intros Hopen Hinv. split.
  - intros Hexc w2 Hclose.
    unfold main, bind, try_finally.
    rewrite Hopen. rewrite (main_try_catches w0 e w1 Hinv Hexc).
    rewrite Hclose. split; [reflexivity|].
    unfold on_env in Hclose. cbn [env console steps_run] in Hclose.
    destruct (close_session (env w1)) as [r e2].
    injection Hclose as _ <-. reflexivity.
  - intros Hexc w2 Hclose.
    unfold main, bind, try_finally.
    rewrite Hopen. rewrite (main_try_passes w0 e w1 Hinv Hexc).
    rewrite Hclose. split; [reflexivity|].
    unfold on_env in Hclose.
    destruct (close_session (env w1)) as [r e2].
    injection Hclose as _ <-. reflexivity.
Qed.

End ClientProperties.

(** ** The client on concrete calls *)

Example loop_stops_at_ceiling :
  fst (ainvoke step_never_finishes agent_executor
         [("input", VStr query)] client_start)
  = Ret (VDict [("input", VStr query);
                ("output",
                 VStr "Agent stopped due to iteration limit or time limit.")])
  /\ steps_run (snd (ainvoke step_never_finishes agent_executor
                       [("input", VStr query)] client_start))
     = 5%nat.
Proof. split; reflexivity. Qed.

Example loop_returns_answer :
  fst (ainvoke step_finishes_third agent_executor
         [("input", VStr query)] client_start)
  = Ret (VDict [("input", VStr query);
                ("output", VStr "There are 2 documents.")])
  /\ steps_run (snd (ainvoke step_finishes_third agent_executor
                       [("input", VStr query)] client_start))
     = 3%nat.
Proof. split; reflexivity. Qed.

Lemma agent_loop_bounded_witness :
  steps_run (snd (executor_while step_never_finishes (fun _ => false) 6
                    agent_executor 0 [] client_start))
  = 5%nat
  /\ fst (executor_while step_never_finishes (fun _ => false) 6
            agent_executor 0 [] client_start)
     = Ret (Some
              [("output",
                VStr "Agent stopped due to iteration limit or time limit.")]).
Proof.
  apply (proj2 (proj2 (proj2
           (agent_loop_bounded step_never_finishes (fun _ => false) 6
              client_start ltac:(lia))))).
  intros steps ew.
  exists [(count_tool, "No results found for the aggregation.")],
    (S (fst ew), snd ew).
  split; reflexivity.
Defined.

Lemma main_returns_error_object_witness :
  fst (main session_ok session_ok
         (step_raises (Exn RuntimeError "Error code: 401 - Invalid API Key"))
         client_start)
  = Ret (VDict [("error", VStr "Error code: 401 - Invalid API Key")])
  /\ fst (main session_ok session_ok
            (step_raises (Exn SystemExit "")) client_start)
     = Raise (Exn SystemExit "").
Proof.
  split.
  - edestruct (proj1 (main_returns_error_object session_ok session_ok
                        (step_raises
                           (Exn RuntimeError "Error code: 401 - Invalid API Key"))
                        client_start client_start
                        (Exn RuntimeError "Error code: 401 - Invalid API Key")
                        _ eq_refl eq_refl) eq_refl)
      as [Hmain Hconsole].
    + reflexivity.
    + rewrite Hmain. reflexivity.
  - edestruct (proj2 (main_returns_error_object session_ok session_ok
                        (step_raises (Exn SystemExit ""))
                        client_start client_start (Exn SystemExit "")
                        _ eq_refl eq_refl) eq_refl)
      as [Hmain Hconsole].
    + reflexivity.
    + rewrite Hmain. reflexivity.
Defined.

(** The call that the unamended C7 gets wrong: the invocation is cancelled,
    [CancelledError] is not an [Exception], and [main] raises it again
    with nothing printed after the query. *)
Lemma cancellation_escapes_main :
  fst (ainvoke (step_raises (Exn CancelledError "")) agent_executor
         [("input", VStr query)] client_start)
  = Raise (Exn CancelledError "")
  /\ fst (main session_ok session_ok
            (step_raises (Exn CancelledError "")) client_start)
     = Raise (Exn CancelledError "")
  /\ console (snd (main session_ok session_ok
                     (step_raises (Exn CancelledError "")) client_start))
     = [OutPrint [VStr (nl +:+ "📝 QUERY: " +:+ query +:+ nl)]].
Proof. repeat split; reflexivity. Qed.

(** * Further properties of the tool server *)

Section ServerCalls.

Context {Database : Type}.
Variable aggregate :
  Database -> string -> string -> list pyval ->
  outcome (list pyval) * Database.
Variable fromisoformat : string -> string + datetime.

Implicit Types (w : world Database) (p : loc) (stages : list pyval).

(** A run is its plan carried out: the soft failure, or one call of the
    driver on the planned pipeline. *)
Lemma run_by_plan ctx p stages start end_ w :
  heap w !! p = Some stages ->
  query_db_aggregate aggregate fromisoformat ctx p start end_ w
  = match planned_pipeline fromisoformat stages start end_ with
    | inl msg =>
        (Ret (VStr (invalid_date_prefix +:+ msg)),
         World (<[fresh (dom (heap w)) := []]> (heap w))
           (database w) (trace w))
    | inr final =>
        let (r, d') :=
          aggregate (database w) "fundaura" "transactions" final in
        (tool_result r,
         World (<[fresh (dom (heap w)) := final]> (heap w)) d'
           (trace w ++ [EvAggregate (db (lifespan_context ctx))
                          "fundaura" "transactions" final]))
    end.
Proof.
  intros Hp. unfold planned_pipeline.
  destruct (truthy start && truthy end_) eqn:Htruthy.
  - apply andb_prop in Htruthy as [Hs He].
    apply truthy_Some in Hs as (s & -> & Hs).
    apply truthy_Some in He as (e & -> & He).
    destruct (fromisoformat s) as [m1|ds] eqn:Hps.
    + apply run_with_bad_dates; auto.
      unfold parse_failure. rewrite Hps. reflexivity.
    + destruct (fromisoformat e) as [m2|de] eqn:Hpe.
      * apply run_with_bad_dates; auto.
        unfold parse_failure. rewrite Hps, Hpe. reflexivity.
      * apply (run_with_dates aggregate fromisoformat ctx p stages s e ds de w);
          assumption.
  - apply run_without_dates; assumption.
Qed.

Lemma tool_result_not_date_error (r : outcome (list pyval)) (msg : string) :
  tool_result r <> Ret (VStr (invalid_date_prefix +:+ msg)).
Proof. destruct r as [[|doc docs]|e]; simpl; discriminate. Qed.

(** X1: a call of the tool reaches the driver once or not at all.  Either
    the date error is returned, with no event and the database as it was;
    or exactly one [aggregate] is sent, through the handle of the context,
    to [fundaura.transactions], the database is what that call left, and
    the result is not the date error. *)
Theorem driver_called_once_or_never ctx p stages start end_ w :
  heap w !! p = Some stages ->
  let run := query_db_aggregate aggregate fromisoformat ctx p start end_ w in
  (exists msg,
      fst run = Ret (VStr (invalid_date_prefix +:+ msg))
      /\ trace (snd run) = trace w
      /\ database (snd run) = database w)
  \/ (exists final,
        trace (snd run)
        = trace w ++ [EvAggregate (db (lifespan_context ctx))
                        "fundaura" "transactions" final]
        /\ database (snd run)
           = snd (aggregate (database w) "fundaura" "transactions" final)
        /\ forall msg, fst run <> Ret (VStr (invalid_date_prefix +:+ msg))).
Proof.
  intros Hp run. subst run.
  rewrite (run_by_plan ctx p stages start end_ w Hp).
  destruct (planned_pipeline fromisoformat stages start end_) as [msg|final].
  - left. exists msg. repeat split.
  - right. exists final.
    destruct (aggregate (database w) "fundaura" "transactions" final)
      as [r d'].
    cbn [fst snd trace database]. repeat split.
    apply tool_result_not_date_error.
Qed.

(** X2: an exception of the driver is not caught by the tool: when the call
    on [final] raises [e], the tool raises [e], whatever its class, and
    leaves the database as the driver left it. *)
Theorem driver_exception_propagates ctx p stages start end_ w final e d' :
  heap w !! p = Some stages ->
  let run := query_db_aggregate aggregate fromisoformat ctx p start end_ w in
  executed_pipelines (trace (snd run))
  = executed_pipelines (trace w) ++ [final] ->
  aggregate (database w) "fundaura" "transactions" final = (Raise e, d') ->
  fst run = Raise e /\ database (snd run) = d'.
Proof.
  intros Hp run. subst run.
  rewrite (run_by_plan ctx p stages start end_ w Hp).
  destruct (planned_pipeline fromisoformat stages start end_) as [msg|final0].
  - cbn [snd trace]. intros Hexec. exfalso. exact (snoc_not_self _ _ Hexec).
  - destruct (aggregate (database w) "fundaura" "transactions" final0)
      as [r d0] eqn:Hagg0.
    cbn [fst snd trace database]. rewrite executed_pipelines_snoc.
    intros Hexec Hagg. apply app_inv_head in Hexec. injection Hexec as ->.
    rewrite Hagg in Hagg0. injection Hagg0 as <- <-. split; reflexivity.
Qed.

(** X3: the tool raises nothing of its own: when a call raises [e], the
    driver was called and it is the driver that raised [e]. *)
Theorem tool_raises_only_driver_errors ctx p stages start end_ w e :
  heap w !! p = Some stages ->
  let run := query_db_aggregate aggregate fromisoformat ctx p start end_ w in
  fst run = Raise e ->
  exists final d',
    executed_pipelines (trace (snd run))
    = executed_pipelines (trace w) ++ [final]
    /\ aggregate (database w) "fundaura" "transactions" final = (Raise e, d').
Proof.
  intros Hp run. subst run.
  rewrite (run_by_plan ctx p stages start end_ w Hp).
  destruct (planned_pipeline fromisoformat stages start end_) as [msg|final].
  - cbn [fst]. discriminate.
  - destruct (aggregate (database w) "fundaura" "transactions" final)
      as [r d'] eqn:Hagg.
    cbn [fst snd trace]. intros Hraise. exists final, d'.
    split; [apply executed_pipelines_snoc|].
    destruct r as [[|doc docs]|ex]; simpl in Hraise; try discriminate.
    injection Hraise as ->. exact Hagg.
Qed.

(** X4: what the tool returns is one of three things: the date error, the
    sentinel string, or a list with at least one document; never another
    kind of value. *)
Theorem returned_value_shapes ctx p stages start end_ w v :
  heap w !! p = Some stages ->
  fst (query_db_aggregate aggregate fromisoformat ctx p start end_ w) = Ret v ->
  (exists msg, v = VStr (invalid_date_prefix +:+ msg))
  \/ v = VStr "No results found for the aggregation."
  \/ (exists doc docs, v = VList (doc :: docs)).
Proof.
  intros Hp.
  rewrite (run_by_plan ctx p stages start end_ w Hp).
  destruct (planned_pipeline fromisoformat stages start end_) as [msg|final].
  - cbn [fst]. intros [= <-]. left. eauto.
  - destruct (aggregate (database w) "fundaura" "transactions" final)
      as [[[|doc docs]|ex] d']; cbn [fst tool_result].
    + intros [= <-]. right. left. reflexivity.
    + intros [= <-]. right. right. eauto.
    + discriminate.
Qed.

(** X5: giving [start] and [end] is the same as writing the date stage at
    the head of the pipeline oneself: the two calls have the same outcome
    and leave the same world. *)
Theorem date_range_same_as_explicit_stage ctx p p' stages s e ds de w :
  (forall d, fromisoformat "" <> inr d) ->
  heap w !! p = Some stages ->
  heap w !! p' = Some (date_match_stage ds de :: stages) ->
  fromisoformat s = inr ds ->
  fromisoformat e = inr de ->
  query_db_aggregate aggregate fromisoformat ctx p (Some s) (Some e) w
  = query_db_aggregate aggregate fromisoformat ctx p' None None w.
Proof.
  intros Hempty Hp Hp' Hps Hpe.
  assert (Hs : s <> "") by (intros ->; exact (Hempty ds Hps)).
  assert (He : e <> "") by (intros ->; exact (Hempty de Hpe)).
  rewrite (run_by_plan ctx p stages (Some s) (Some e) w Hp).
  rewrite (run_by_plan ctx p' _ None None w Hp').
  unfold planned_pipeline.
  rewrite (truthy_nonempty s Hs), (truthy_nonempty e He), Hps, Hpe.
  reflexivity.
Qed.

(** X6: the tool can be repeated: when the first call has left the database
    as it was, the same call made again in the world the first one left
    gives the same result.  The caller's list is intact, and the fresh list
    of the first call is not in the way. *)
Theorem repeated_call_same_result ctx p stages start end_ w :
  heap w !! p = Some stages ->
  let first := query_db_aggregate aggregate fromisoformat ctx p start end_ w in
  database (snd first) = database w ->
  fst (query_db_aggregate aggregate fromisoformat ctx p start end_ (snd first))
  = fst first.
Proof.
  intros Hp first Hdb.
  assert (Hp1 : heap (snd first) !! p = Some stages).
  { subst first. pose proof (fresh_not_allocated w p stages Hp) as Hne.
    rewrite (run_by_plan ctx p stages start end_ w Hp).
    destruct (planned_pipeline fromisoformat stages start end_) as [msg|final].
    - cbn [snd heap]. rewrite lookup_insert_ne by exact Hne. exact Hp.
    - destruct (aggregate (database w) "fundaura" "transactions" final).
      cbn [snd heap]. rewrite lookup_insert_ne by exact Hne. exact Hp. }
  rewrite (run_by_plan ctx p stages start end_ (snd first) Hp1).
  rewrite Hdb. subst first.
  rewrite (run_by_plan ctx p stages start end_ w Hp).
  destruct (planned_pipeline fromisoformat stages start end_) as [msg|final].
  - reflexivity.
  - destruct (aggregate (database w) "fundaura" "transactions" final).
    reflexivity.
Qed.

(** X7: a tool call made inside the lifespan uses the connection the
    lifespan made, after the connect and before the close: the trace of the
    whole is the log line, the connect, at most one [aggregate] on that
    same handle, the close and the closing line. *)
Theorem tool_call_inside_lifespan p stages start end_ w :
  heap w !! p = Some stages ->
  let h := {| connection_string := "mongodb://localhost:27017/";
              db_name := "fundaura";
              max_pool := 5;
              server_selection_timeout := 60000 |} in
  let run :=
    app_lifespan
      (fun app_ctx =>
         query_db_aggregate aggregate fromisoformat
           {| lifespan_context := app_ctx |} p start end_) w in
  exists calls,
    trace (snd run)
    = trace w
      ++ [EvLogInfo "Starting MongoDB connection..."; EvConnect h]
      ++ calls
      ++ [EvClose h; EvPrint "Closed MongoDB connection"]
    /\ (calls = []
        \/ exists final,
            calls = [EvAggregate h "fundaura" "transactions" final]).
Proof.
  intros Hp h run. subst run.
  unfold app_lifespan, bind, emit, try_finally. cbn [heap database trace].
  fold h.
  set (w0 := World (heap w) (database w)
               ((trace w ++ [EvLogInfo "Starting MongoDB connection..."])
                ++ [EvConnect h])).
  assert (Hp0 : heap w0 !! p = Some stages) by exact Hp.
  rewrite (run_by_plan {| lifespan_context := {| db := h |} |} p stages
             start end_ w0 Hp0).
  destruct (planned_pipeline fromisoformat stages start end_) as [msg|final].
  - exists []. cbn [fst snd heap database trace]. split; [|left; reflexivity].
    subst w0. cbn [trace]. rewrite <- !app_assoc. reflexivity.
  - destruct (aggregate (database w0) "fundaura" "transactions" final)
      as [r d'].
    exists [EvAggregate h "fundaura" "transactions" final].
    cbn [fst snd heap database trace lifespan_context db].
    split; [|right; eauto].
    subst w0. cbn [trace]. rewrite <- !app_assoc. reflexivity.
Qed.

End ServerCalls.

(** ** Further calls of the server, on concrete inputs *)

Lemma driver_called_once_or_never_witness :
  (exists msg,
      fst (run_ref [user_111] (Some "next week") (Some "2025-04-20"))
      = Ret (VStr (invalid_date_prefix +:+ msg))
      /\ trace (snd (run_ref [user_111] (Some "next week") (Some "2025-04-20")))
         = []
      /\ database (snd (run_ref [user_111] (Some "next week")
                          (Some "2025-04-20")))
         = sample_db)
  \/ (exists final,
        trace (snd (run_ref [user_111] (Some "next week") (Some "2025-04-20")))
        = [] ++ [EvAggregate (db (lifespan_context sample_ctx))
                   "fundaura" "transactions" final]
        /\ database (snd (run_ref [user_111] (Some "next week")
                            (Some "2025-04-20")))
           = snd (aggregate_ref sample_db "fundaura" "transactions" final)
        /\ forall msg,
            fst (run_ref [user_111] (Some "next week") (Some "2025-04-20"))
            <> Ret (VStr (invalid_date_prefix +:+ msg))).
Proof.
  exact (driver_called_once_or_never aggregate_ref fromisoformat_ref
           sample_ctx 0%nat [user_111] (Some "next week") (Some "2025-04-20")
           (sample_world [user_111]) eq_refl).
Defined.

Lemma driver_exception_propagates_witness :
  fst (query_db_aggregate aggregate_down fromisoformat_ref sample_ctx 0%nat
         None None (sample_world [user_111]))
  = Raise (Exn ConnectionFailure "localhost:27017: connection refused")
  /\ database (snd (query_db_aggregate aggregate_down fromisoformat_ref
                      sample_ctx 0%nat None None (sample_world [user_111])))
     = sample_db.
Proof.
  exact (driver_exception_propagates aggregate_down fromisoformat_ref
           sample_ctx 0%nat [user_111] None None (sample_world [user_111])
           [user_111]
           (Exn ConnectionFailure "localhost:27017: connection refused")
           sample_db eq_refl eq_refl eq_refl).
Defined.

Lemma tool_raises_only_driver_errors_witness :
  exists final d',
    executed_pipelines
      (trace (snd (run_ref [VDict [("$group", VDict [("_id", VStr "$category")])]]
                     None None)))
    = [] ++ [final]
    /\ aggregate_ref sample_db "fundaura" "transactions" final
       = (Raise (Exn OperationFailure "Unrecognized pipeline stage name"), d').
Proof.
  exact (tool_raises_only_driver_errors aggregate_ref fromisoformat_ref
           sample_ctx 0%nat
           [VDict [("$group", VDict [("_id", VStr "$category")])]] None None
           (sample_world [VDict [("$group", VDict [("_id", VStr "$category")])]])
           (Exn OperationFailure "Unrecognized pipeline stage name")
           eq_refl eq_refl).
Defined.

Lemma returned_value_shapes_witness :
  (exists msg,
      VStr "No results found for the aggregation."
      = VStr (invalid_date_prefix +:+ msg))
  \/ VStr "No results found for the aggregation."
     = VStr "No results found for the aggregation."
  \/ (exists doc docs,
        VStr "No results found for the aggregation." = VList (doc :: docs)).
Proof.
  exact (returned_value_shapes aggregate_ref fromisoformat_ref sample_ctx
           0%nat [user_999] None None (sample_world [user_999])
           (VStr "No results found for the aggregation.") eq_refl eq_refl).
Defined.

Lemma date_range_same_as_explicit_stage_witness :
  query_db_aggregate aggregate_ref fromisoformat_ref sample_ctx 0%nat
    (Some "2025-04-19T00:00:00") (Some "2025-04-20T00:00:00")
    (two_pipelines
       (date_match_stage (Datetime 2025 4 19 0 0 0 0 None)
          (Datetime 2025 4 20 0 0 0 0 None))
       [user_111])
  = query_db_aggregate aggregate_ref fromisoformat_ref sample_ctx 1%nat
      None None
      (two_pipelines
         (date_match_stage (Datetime 2025 4 19 0 0 0 0 None)
            (Datetime 2025 4 20 0 0 0 0 None))
         [user_111]).
Proof.
  apply (date_range_same_as_explicit_stage aggregate_ref fromisoformat_ref
           sample_ctx 0%nat 1%nat [user_111] "2025-04-19T00:00:00"
           "2025-04-20T00:00:00" (Datetime 2025 4 19 0 0 0 0 None)
           (Datetime 2025 4 20 0 0 0 0 None)).
  - intros d. vm_compute. discriminate.
  - reflexivity.
  - reflexivity.
  - reflexivity.
  - reflexivity.
Defined.

Lemma repeated_call_same_result_witness :
  fst (query_db_aggregate aggregate_ref fromisoformat_ref sample_ctx 0%nat
         (Some "2025-04-19T00:00:00") (Some "2025-04-20T00:00:00")
         (snd (run_ref [user_111] (Some "2025-04-19T00:00:00")
                 (Some "2025-04-20T00:00:00"))))
  = fst (run_ref [user_111] (Some "2025-04-19T00:00:00")
           (Some "2025-04-20T00:00:00")).
Proof.
  exact (repeated_call_same_result aggregate_ref fromisoformat_ref sample_ctx
           0%nat [user_111] (Some "2025-04-19T00:00:00")
           (Some "2025-04-20T00:00:00") (sample_world [user_111])
           eq_refl eq_refl).
Defined.

Lemma tool_call_inside_lifespan_witness :
  exists calls,
    trace (snd (app_lifespan
                  (fun app_ctx =>
                     query_db_aggregate aggregate_ref fromisoformat_ref
                       {| lifespan_context := app_ctx |} 0%nat None None)
                  (sample_world [user_111])))
    = [] ++ [EvLogInfo "Starting MongoDB connection...";
             EvConnect (db (lifespan_context sample_ctx))]
         ++ calls
         ++ [EvClose (db (lifespan_context sample_ctx));
             EvPrint "Closed MongoDB connection"]
    /\ (calls = []
        \/ exists final,
            calls = [EvAggregate (db (lifespan_context sample_ctx))
                       "fundaura" "transactions" final]).
Proof.
  exact (tool_call_inside_lifespan aggregate_ref fromisoformat_ref 0%nat
           [user_111] None None (sample_world [user_111]) eq_refl).
Defined.

(** * Further properties of the structured-chat client *)

Section Scratchpad.

Implicit Types (steps : list AgentStep) (thoughts : list message).

(** The loop of the source only appends to [thoughts], and what it appends
    is the functional reading of it. *)
Lemma format_log_loop_appends thoughts steps :
  format_log_loop thoughts steps = thoughts ++ format_log_to_messages steps.
Proof.
  revert thoughts. induction steps as [|[action observation] rest IH];
    intros thoughts; simpl.
  - rewrite app_nil_r. reflexivity.
  - rewrite IH. rewrite <- !app_assoc. reflexivity.
Qed.

(** X8: the scratchpad holds two messages for each step taken. *)
Theorem scratchpad_length steps :
  length (format_log_to_messages steps) = (2 * length steps)%nat.
Proof.
  induction steps as [|[action observation] rest IH]; simpl; [reflexivity|].
  rewrite IH. lia.
Qed.

(** X9: the scratchpad of a longer run begins with the scratchpad of the
    run so far: formatting distributes over the concatenation of steps. *)
Theorem scratchpad_app steps more :
  format_log_to_messages (steps ++ more)
  = format_log_to_messages steps ++ format_log_to_messages more.
Proof.
  induction steps as [|[action observation] rest IH]; simpl; [reflexivity|].
  rewrite IH. reflexivity.
Qed.

(** X10: the messages alternate and keep the order of the steps: step [i]
    gives the AI message with the action's log at position [2 i] and the
    human message with its observation at position [2 i + 1]. *)
Theorem scratchpad_lookup steps (i : nat) action observation :
  steps !! i = Some (action, observation) ->
  format_log_to_messages steps !! (2 * i)%nat = Some (AIMessage (log action))
  /\ format_log_to_messages steps !! (2 * i + 1)%nat
     = Some (HumanMessage ("Observation: " +:+ observation)).
Proof.
  revert i. induction steps as [|[a o] rest IH]; intros i Hi.
  - discriminate.
  - destruct i as [|i].
    + injection Hi as -> ->. split; reflexivity.
    + specialize (IH i Hi).
      replace (2 * S i)%nat with (S (S (2 * i))) by lia.
      replace (S (S (2 * i)) + 1)%nat with (S (S (2 * i + 1))) by lia.
      exact IH.
Qed.

Lemma append_inj_r (a b c : string) : a +:+ b = a +:+ c -> b = c.
Proof.
  induction a as [|x a IH]; simpl; [auto|].
  intros [= H]. auto.
Qed.

(** X11: nothing of a log or of the text of an observation is lost: two runs
    with the same scratchpad took steps with the same logs and with
    observations of the same text, [str(observation)], in the same order.
    Observations that print alike are not told apart. *)
Theorem scratchpad_determines_steps steps steps' :
  format_log_to_messages steps = format_log_to_messages steps' ->
  map (fun '(action, observation) => (log action, observation)) steps
  = map (fun '(action, observation) => (log action, observation)) steps'.
Proof.
  revert steps'. induction steps as [|[a o] rest IH]; intros [|[a' o'] rest'];
    simpl; try discriminate; [reflexivity|].
  intros [= Hlog Hobs Hrest].
  apply append_inj_r in Hobs. rewrite Hlog, Hobs, (IH rest' Hrest).
  reflexivity.
Qed.

End Scratchpad.

Section ClientRuns.

Context {Env : Type}.
Variable open_session : Env -> outcome unit * Env.
Variable close_session : Env -> outcome unit * Env.
Variable take_next_step :
  list AgentStep -> Env * list output ->
  outcome next_step * (Env * list output).

Implicit Types (w : cworld Env).

(** The [try] statement when the invocation returns. *)
Lemma main_try_returns w response w1 :
  ainvoke take_next_step agent_executor [("input", VStr query)]
    (CWorld (env w)
       (console w ++ [OutPrint [VStr (nl +:+ "📝 QUERY: " +:+ query +:+ nl)]])
       (steps_run w))
  = (Ret response, w1) ->
  main_try take_next_step w
  = (Ret response,
     CWorld (env w1)
       (console w1 ++ [OutPrint [VStr "FINAL RESPONSE:"; response]])
       (steps_run w1)).
Proof.
  intros Hinv.
  unfold main_try, try_except, bind, print. cbn [env console steps_run].
  rewrite Hinv. reflexivity.
Qed.

(** X12: when the invocation returns a response, [main] prints it after
    [FINAL RESPONSE:] and returns it as it is; no error object is made.  The
    session is taken to open and to close without an exception. *)
Theorem main_returns_response w w0 response w1 w2 :
  on_env open_session w = (Ret tt, w0) ->
  ainvoke take_next_step agent_executor [("input", VStr query)]
    (CWorld (env w0)
       (console w0 ++ [OutPrint [VStr (nl +:+ "📝 QUERY: " +:+ query +:+ nl)]])
       (steps_run w0))
  = (Ret response, w1) ->
  on_env close_session
    (CWorld (env w1)
       (console w1 ++ [OutPrint [VStr "FINAL RESPONSE:"; response]])
       (steps_run w1))
  = (Ret tt, w2) ->
  main open_session close_session take_next_step w = (Ret response, w2)
  /\ console w2 = console w1 ++ [OutPrint [VStr "FINAL RESPONSE:"; response]].
Proof.
  intros Hopen Hinv Hclose.
  unfold main, bind, try_finally.
  rewrite Hopen, (main_try_returns w0 response w1 Hinv), Hclose.
  split; [reflexivity|].
  unfold on_env in Hclose. cbn [env console steps_run] in Hclose.
  destruct (close_session (env w1)) as [r e2].
  injection Hclose as _ <-. reflexivity.
Qed.

(** X14: when the agent fails with an [Exception], and provided the session
    opened and then closes without raising, the script ends normally:
    [main] hands the error object to line 106, which prints it after
    [Final result:]. *)
Theorem script_prints_error_object w w0 e w1 w2 :
  on_env open_session w = (Ret tt, w0) ->
  ainvoke take_next_step agent_executor [("input", VStr query)]
    (CWorld (env w0)
       (console w0 ++ [OutPrint [VStr (nl +:+ "📝 QUERY: " +:+ query +:+ nl)]])
       (steps_run w0))
  = (Raise e, w1) ->
  is_Exception (exn_cls e) = true ->
  on_env close_session
    (CWorld (env w1)
       (console w1 ++ [OutPrint [VStr ("Error executing agent: " +:+ exn_str e)];
                       OutTraceback e])
       (steps_run w1))
  = (Ret tt, w2) ->
  script Env open_session close_session take_next_step w
  = (Ret tt,
     CWorld (env w2)
       (console w1
        ++ [OutPrint [VStr ("Error executing agent: " +:+ exn_str e)];
            OutTraceback e;
            OutPrint [VStr "Final result:";
                      VDict [("error", VStr (exn_str e))]]])
       (steps_run w2)).
Proof.
  intros Hopen Hinv Hexc Hclose.
  unfold script, main, bind, try_finally.
  rewrite Hopen, (main_try_catches take_next_step w0 e w1 Hinv Hexc), Hclose.
  unfold print. f_equal.
  unfold on_env in Hclose. cbn [env console steps_run] in Hclose.
  destruct (close_session (env w1)) as [r e2].
  injection Hclose as _ <-. cbn [env console steps_run].
  rewrite <- app_assoc. reflexivity.
Qed.

End ClientRuns.

(** ** Further runs of the structured-chat client, on concrete inputs *)

Lemma scratchpad_lookup_witness :
  format_log_to_messages
    [(count_tool, "[{'n': 2}]");
     (count_tool, "No results found for the aggregation.")] !! 2%nat
  = Some (AIMessage "Action: mongodb_aggregate_query")
  /\ format_log_to_messages
       [(count_tool, "[{'n': 2}]");
        (count_tool, "No results found for the aggregation.")] !! 3%nat
     = Some (HumanMessage "Observation: No results found for the aggregation.").
Proof.
  exact (scratchpad_lookup
           [(count_tool, "[{'n': 2}]");
            (count_tool, "No results found for the aggregation.")]
           1%nat count_tool "No results found for the aggregation." eq_refl).
Defined.

Lemma scratchpad_determines_steps_witness :
  map (fun '(action, observation) => (log action, observation))
    [(count_tool, "[{'n': 2}]")]
  = map (fun '(action, observation) => (log action, observation))
      [({| tool := "another_tool"; tool_input := VNone;
           log := "Action: mongodb_aggregate_query" |}, "[{'n': 2}]")].
Proof.
  exact (scratchpad_determines_steps
           [(count_tool, "[{'n': 2}]")]
           [({| tool := "another_tool"; tool_input := VNone;
                log := "Action: mongodb_aggregate_query" |}, "[{'n': 2}]")]
           eq_refl).
Defined.

Lemma main_returns_response_witness :
  fst (main session_ok session_ok step_finishes_third client_start)
  = Ret (VDict [("input", VStr query);
                ("output", VStr "There are 2 documents.")]).
Proof.
  edestruct (main_returns_response session_ok session_ok step_finishes_third
               client_start) as [Hmain Hconsole].
  - reflexivity.
  - reflexivity.
  - reflexivity.
  - rewrite Hmain. reflexivity.
Defined.

Lemma script_prints_error_object_witness :
  fst (script nat session_ok session_ok
         (step_raises (Exn RuntimeError "Error code: 401 - Invalid API Key"))
         client_start)
  = Ret tt.
Proof.
  erewrite (script_prints_error_object session_ok session_ok
              (step_raises (Exn RuntimeError "Error code: 401 - Invalid API Key"))
              client_start).
  - reflexivity.
  - reflexivity.
  - reflexivity.
  - reflexivity.
  - reflexivity.
Defined.

(** * Properties of the ReAct client *)

Section ReactClient.

Context {Env Streams SessionHandle Tools Agent : Type}.
Variable stdio_client_enter : StdioServerParameters -> step Env Streams.
Variable stdio_client_exit : Streams -> step Env unit.
Variable ClientSession_enter : Streams -> step Env SessionHandle.
Variable ClientSession_exit : SessionHandle -> step Env unit.
Variable session_initialize : SessionHandle -> step Env unit.
Variable load_mcp_tools : SessionHandle -> step Env Tools.
Variable create_react_agent : Tools -> step Env Agent.
Variable agent_ainvoke : Agent -> list (string * pyval) -> step Env pyval.

Implicit Types (w : rworld Env).

Lemma call_keeps_log {A} (f : step Env A) w :
  rlog (snd (call f w)) = rlog w.
Proof.
  unfold call. destruct (f (renv w, rconsole w)) as [r [e' c']]. reflexivity.
Qed.

(** The log of an [async with]: nothing when the entry fails; otherwise the
    log of the body between the entry and the exit, however the body and
    the exit end. *)
Lemma async_with_log {A B} (r : resource) (aenter : step Env A)
    (aexit : A -> step Env unit) (body : A -> M (rworld Env) B)
    (inner : list session_event -> Prop) w :
  (forall x w1, exists t, rlog (snd (body x w1)) = rlog w1 ++ t /\ inner t) ->
  exists t,
    rlog (snd (async_with r aenter aexit body w)) = rlog w ++ t
    /\ (t = [] \/ exists t0, inner t0 /\ t = Enter r :: t0 ++ [Exit r]).
Proof.
  intros Hbody. unfold async_with, bind, call, record, try_finally.
  destruct (aenter (renv w, rconsole w)) as [[x|e] [e1 c1]].
  - cbn [renv rconsole rlog].
    destruct (Hbody x (RWorld e1 c1 (rlog w ++ [Enter r])))
      as (t0 & Hlog & Hinner).
    destruct (body x (RWorld e1 c1 (rlog w ++ [Enter r]))) as [rb wb].
    cbn [snd rlog] in Hlog.
    destruct (aexit x (renv wb, rconsole wb)) as [[[]|ex] [e2 c2]];
      cbn [snd rlog]; exists (Enter r :: t0 ++ [Exit r]);
      (split; [rewrite Hlog, <- !app_assoc; reflexivity | right; eauto]).
  - exists []. cbn [snd rlog]. rewrite app_nil_r. auto.
Qed.

(** X15: every context that [run_agent] has entered is exited, the session
    before the stdio client, on every path: whatever the library calls do,
    the log of the run is one of the three balanced ones. *)
Theorem run_agent_sessions_balanced w :
  exists t,
    rlog (snd (run_agent stdio_client_enter stdio_client_exit
                 ClientSession_enter ClientSession_exit session_initialize
                 load_mcp_tools create_react_agent agent_ainvoke w))
    = rlog w ++ t
    /\ In t balanced_logs.
Proof.
  unfold run_agent.
  destruct (async_with_log StdioClient (stdio_client_enter server_params)
              stdio_client_exit
              (fun streams =>
                 async_with Session (ClientSession_enter streams)
                   ClientSession_exit
                   (fun session =>
                      (call (session_initialize session) ;;;
                       tools <- call (load_mcp_tools session) ;;
                       agent <- call (create_react_agent tools) ;;
                       agent_response <-
                         call (agent_ainvoke agent
                                 [("messages", VStr react_query)]) ;;
                       ret agent_response)%py))
              (fun t => t = [] \/ t = [Enter Session; Exit Session]) w)
    as (t & Hlog & Ht).
  - intros streams w1.
    destruct (async_with_log Session (ClientSession_enter streams)
                ClientSession_exit
                (fun session =>
                   (call (session_initialize session) ;;;
                    tools <- call (load_mcp_tools session) ;;
                    agent <- call (create_react_agent tools) ;;
                    agent_response <-
                      call (agent_ainvoke agent
                              [("messages", VStr react_query)]) ;;
                    ret agent_response)%py)
                (fun t => t = []) w1) as (t & Hlog & Ht).
    + intros session w2. exists []. split; [|reflexivity].
      rewrite app_nil_r. unfold bind, ret.
      pose proof (call_keeps_log (session_initialize session) w2) as H1.
      destruct (call (session_initialize session) w2) as [[[]|e1] w3];
        cbn [snd] in *; [|exact H1].
      pose proof (call_keeps_log (load_mcp_tools session) w3) as H2.
      destruct (call (load_mcp_tools session) w3) as [[tools|e2] w4];
        cbn [snd] in *; [|congruence].
      pose proof (call_keeps_log (create_react_agent tools) w4) as H3.
      destruct (call (create_react_agent tools) w4) as [[agent|e3] w5];
        cbn [snd] in *; [|congruence].
      pose proof (call_keeps_log
                    (agent_ainvoke agent [("messages", VStr react_query)])
                    w5) as H4.
      destruct (call (agent_ainvoke agent [("messages", VStr react_query)]) w5)
        as [[response|e4] w6]; cbn [snd] in *; congruence.
    + exists t. split; [exact Hlog|].
      destruct Ht as [-> | (t0 & -> & ->)]; [left | right]; reflexivity.
  - exists t. split; [exact Hlog|].
    destruct Ht as [-> | (t0 & [-> | ->] & ->)]; simpl; auto.
Qed.

(** X16: [run_agent] returns nothing but the agent's own response: when it
    returns [v], both contexts were entered, the session was initialised,
    the tools were loaded from that session, the agent was built from those
    tools, and it is that agent, invoked on the query of line 37, which
    returned [v]; each step started where the one before left off. *)
Theorem run_agent_returns_agent_response w v :
  fst (run_agent stdio_client_enter stdio_client_exit ClientSession_enter
         ClientSession_exit session_initialize load_mcp_tools
         create_react_agent agent_ainvoke w)
  = Ret v ->
  exists streams session tools agent ew1 ew2 ew3 ew4 ew5 ew6,
    stdio_client_enter server_params (renv w, rconsole w) = (Ret streams, ew1)
    /\ ClientSession_enter streams ew1 = (Ret session, ew2)
    /\ session_initialize session ew2 = (Ret tt, ew3)
    /\ load_mcp_tools session ew3 = (Ret tools, ew4)
    /\ create_react_agent tools ew4 = (Ret agent, ew5)
    /\ agent_ainvoke agent [("messages", VStr react_query)] ew5 = (Ret v, ew6).
Proof.
  unfold run_agent, async_with, bind, call, record, try_finally, ret.
  destruct (stdio_client_enter server_params (renv w, rconsole w))
    as [[streams|e] [e1 c1]] eqn:H1; cbn [renv rconsole rlog fst];
    [|discriminate].
  destruct (ClientSession_enter streams (e1, c1)) as [[session|e] [e2 c2]]
    eqn:H2; cbn [renv rconsole rlog fst].
  - destruct (session_initialize session (e2, c2)) as [[[]|e] [e3 c3]] eqn:H3;
      cbn [renv rconsole rlog fst].
    + destruct (load_mcp_tools session (e3, c3)) as [[tools|e] [e4 c4]]
        eqn:H4; cbn [renv rconsole rlog fst].
      * destruct (create_react_agent tools (e4, c4))
          as [[agent|e] [e8 c8]] eqn:Hagent; cbn [renv rconsole rlog fst].
        -- destruct (agent_ainvoke agent [("messages", VStr react_query)]
                       (e8, c8))
             as [[response|e] [e5 c5]] eqn:Hinv; cbn [renv rconsole rlog fst].
           ++ destruct (ClientSession_exit session (e5, c5))
                as [[[]|e] [e6 c6]]; cbn [renv rconsole rlog fst];
                destruct (stdio_client_exit streams (e6, c6))
                  as [[[]|e'] [e7 c7]]; cbn [fst]; try discriminate.
              intros [= <-].
              exists streams, session, tools, agent, (e1, c1), (e2, c2),
                (e3, c3), (e4, c4), (e8, c8), (e5, c5).
              repeat split; assumption.
           ++ destruct (ClientSession_exit session (e5, c5))
                as [[[]|e'] [e6 c6]]; cbn [renv rconsole rlog fst];
                destruct (stdio_client_exit streams (e6, c6))
                  as [[[]|e''] [e7 c7]]; cbn [fst]; discriminate.
        -- destruct (ClientSession_exit session (e8, c8)) as [[[]|e'] [e6 c6]];
             cbn [renv rconsole rlog fst];
             destruct (stdio_client_exit streams (e6, c6))
               as [[[]|e''] [e7 c7]]; cbn [fst]; discriminate.
      * destruct (ClientSession_exit session (e4, c4)) as [[[]|e'] [e6 c6]];
          cbn [renv rconsole rlog fst];
          destruct (stdio_client_exit streams (e6, c6))
            as [[[]|e''] [e7 c7]]; cbn [fst]; discriminate.
    + destruct (ClientSession_exit session (e3, c3)) as [[[]|e'] [e6 c6]];
        cbn [renv rconsole rlog fst];
        destruct (stdio_client_exit streams (e6, c6))
          as [[[]|e''] [e7 c7]]; cbn [fst]; discriminate.
  - destruct (stdio_client_exit streams (e2, c2)) as [[[]|e''] [e7 c7]];
      cbn [fst]; discriminate.
Qed.

(** X17: when the session steps succeed, [run_agent] hands back the outcome
    of the invocation untouched, a response or an exception of any class:
    there is no [try] around it and nothing is printed by the client; both
    contexts are left on the way out. *)
Theorem run_agent_hands_back_outcome w streams session tools agent r
    ew1 ew2 ew3 ew4 ew4' ew5 ew6 ew7 :
  stdio_client_enter server_params (renv w, rconsole w) = (Ret streams, ew1) ->
  ClientSession_enter streams ew1 = (Ret session, ew2) ->
  session_initialize session ew2 = (Ret tt, ew3) ->
  load_mcp_tools session ew3 = (Ret tools, ew4) ->
  create_react_agent tools ew4 = (Ret agent, ew4') ->
  agent_ainvoke agent [("messages", VStr react_query)] ew4' = (r, ew5) ->
  ClientSession_exit session ew5 = (Ret tt, ew6) ->
  stdio_client_exit streams ew6 = (Ret tt, ew7) ->
  run_agent stdio_client_enter stdio_client_exit ClientSession_enter
    ClientSession_exit session_initialize load_mcp_tools create_react_agent
    agent_ainvoke w
  = (r, RWorld (fst ew7) (snd ew7)
          (rlog w ++ [Enter StdioClient; Enter Session;
                      Exit Session; Exit StdioClient])).
Proof.
  intros H1 H2 H3 H4 H4' H5 H6 H7.
  destruct ew1 as [e1 c1], ew2 as [e2 c2], ew3 as [e3 c3], ew4 as [e4 c4],
    ew4' as [e8 c8], ew5 as [e5 c5], ew6 as [e6 c6], ew7 as [e7 c7].
  unfold run_agent, async_with, bind, call, record, try_finally, ret.
  rewrite H1. cbn [renv rconsole rlog]. rewrite H2. cbn [renv rconsole rlog].
  rewrite H3. cbn [renv rconsole rlog]. rewrite H4. cbn [renv rconsole rlog].
  rewrite H4'. cbn [renv rconsole rlog]. rewrite H5.
  destruct r as [response|e]; cbn [renv rconsole rlog];
    rewrite H6; cbn [renv rconsole rlog]; rewrite H7; cbn [fst snd];
    rewrite <- !app_assoc; reflexivity.
Qed.

End ReactClient.

(** ** Runs of the ReAct client, on concrete inputs *)

Lemma run_agent_returns_agent_response_witness :
  exists (streams session tools agent : unit) ew1 ew2 ew3 ew4 ew5 ew6,
    ok_step tt (renv react_start, rconsole react_start) = (Ret streams, ew1)
    /\ ok_step tt ew1 = (Ret session, ew2)
    /\ ok_step tt ew2 = (Ret tt, ew3)
    /\ ok_step tt ew3 = (Ret tools, ew4)
    /\ ok_step tt ew4 = (Ret agent, ew5)
    /\ ok_step react_answer ew5 = (Ret react_answer, ew6).
Proof.
  exact (run_agent_returns_agent_response
           (fun _ => ok_step tt) (fun _ => ok_step tt)
           (fun _ => ok_step tt) (fun _ => ok_step tt)
           (fun _ => ok_step tt) (fun _ => ok_step tt)
           (fun _ => ok_step tt) (fun _ _ => ok_step react_answer)
           react_start react_answer eq_refl).
Defined.

Lemma run_agent_hands_back_outcome_witness :
  run_agent_refused
  = (Raise (Exn RuntimeError "Error code: 401 - Invalid API Key"),
     RWorld 7%nat []
       [Enter StdioClient; Enter Session; Exit Session; Exit StdioClient]).
Proof.
  exact (run_agent_hands_back_outcome
           (fun _ => ok_step tt) (fun _ => ok_step tt)
           (fun _ => ok_step tt) (fun _ => ok_step tt)
           (fun _ => ok_step tt) (fun _ => ok_step tt)
           (fun _ => ok_step tt)
           (fun _ _ => failing_step
                         (Exn RuntimeError "Error code: 401 - Invalid API Key"))
           react_start tt tt tt tt
           (Raise (Exn RuntimeError "Error code: 401 - Invalid API Key"))
           (1%nat, []) (2%nat, []) (3%nat, []) (4%nat, []) (5%nat, [])
           (5%nat, []) (6%nat, []) (7%nat, [])
           eq_refl eq_refl eq_refl eq_refl eq_refl eq_refl eq_refl eq_refl).
Defined.

Example run_agent_ok_returns :
  run_agent_ok
  = (Ret react_answer,
     RWorld 8%nat []
       [Enter StdioClient; Enter Session; Exit Session; Exit StdioClient]).
Proof. reflexivity. Qed.
